(** * Sales bonus report: a shallow embedding of [src/main.js]

    The program is one pure, synchronous routine, [analyzeSalesData], and its
    two default strategies [calculateSimpleRevenue] and
    [calculateBonusByProfit].

    Modelling conventions.
    - A JavaScript number is an exact rational ([Q]); the rounding and
      overflow of binary doubles are outside the model.  The counter
      [sales_count], which only ever receives [+= 1], is a [nat].  A run in
      which a number becomes [NaN], or a quantity a string, ends in the
      result [ReturnNaN]: the call returns, with values no [Q] stands for.
    - A plain object used as a dictionary ([sellerIndex], [productIndex],
      [products_sold]) is the ordered list of its own properties, and its
      prototype is [Object.prototype]: a read [o[k]] finds an own property,
      or else an inherited member when [k] names one ([obj_read]).
    - [sellerIndex] holds references to the objects of [sellerStats]; a
      reference is the position of the object in that array, and a write
      through the reference is an in-place update at that position.
    - [Array.prototype.sort] is stable; for a comparator that is a
      consistent ordering every stable sort returns the same array, and
      the model is insertion sort. *)

From Stdlib Require Import Ascii QArith Qround Qabs Lqa.
From stdpp Require Import base list strings sorting.

Open Scope Q_scope.

#[global] Instance Qeq_decision (x y : Q) : Decision (x == y) := Qeq_dec x y.

(** ** Plain objects as ordered dictionaries *)

(** Own properties, in creation order. *)
Abbreviation obj V := (list (string * V)%type).

Section JSObject.
Context {V : Type}.

(** The own property [k] of [o]; [None] when [o] has no such own property. *)
Fixpoint obj_get (o : obj V) (k : string) : option V :=
  match o with
  | [] => None
  | (k', v) :: o' => if String.eqb k' k then Some v else obj_get o' k
  end.

(** [o[k] = v]: an existing property keeps its place, a new one goes last. *)
Fixpoint obj_set (o : obj V) (k : string) (v : V) : obj V :=
  match o with
  | [] => [(k, v)]
  | (k', v') :: o' =>
      if String.eqb k' k then (k', v) :: o' else (k', v') :: obj_set o' k v
  end.

(** [Object.fromEntries(entries)]: the entries are set one after another. *)
Definition fromEntries (entries : list (string * V)) : obj V :=
  fold_left (fun o kv => obj_set o kv.1 kv.2) entries [].

End JSObject.

(** ** The prototype of a plain object *)

(** The names of the members of [Object.prototype]. *)
Definition Object_prototype_names : list string :=
  [ "constructor"; "__defineGetter__"; "__defineSetter__"; "hasOwnProperty";
    "__lookupGetter__"; "__lookupSetter__"; "isPrototypeOf";
    "propertyIsEnumerable"; "toString"; "valueOf"; "__proto__";
    "toLocaleString" ]%string.

Definition inherited (k : string) : bool :=
  existsb (String.eqb k) Object_prototype_names.

(** What a read [o[k]] of a plain object finds: an own property, a member
    of [Object.prototype] (a function, or the prototype itself for
    ["__proto__"]: an object, so truthy), or [undefined]. *)
Inductive lookup (V : Type) : Type :=
| Own (v : V)
| Inherited
| Undefined.
Arguments Own {V} v.
Arguments Inherited {V}.
Arguments Undefined {V}.

(** [o[k]]. *)
Definition obj_read {V : Type} (o : obj V) (k : string) : lookup V :=
  match obj_get o k with
  | Some v => Own v
  | None => if inherited k then Inherited else Undefined
  end.

(** ** Stable sorting *)

Section Sort.
Context {A : Type}.

(** [before x y] holds when [x], which came first, may stay first. *)
Fixpoint insert_sorted (before : A -> A -> bool) (x : A) (l : list A) : list A :=
  match l with
  | [] => [x]
  | y :: l' =>
      if before x y then x :: y :: l' else y :: insert_sorted before x l'
  end.

Definition insertion_sort (before : A -> A -> bool) (l : list A) : list A :=
  foldr (insert_sorted before) [] l.

(** [array.sort(comparefn)]: [x] stays before [y] unless [comparefn(x, y) > 0]. *)
Definition Array_sort (comparefn : A -> A -> Q) (l : list A) : list A :=
  insertion_sort (fun x y => Qle_bool (comparefn x y) 0) l.

End Sort.

(** ** Property enumeration order *)

Definition digit_of (a : ascii) : option N :=
  let n := N_of_ascii a in
  if ((48 <=? n) && (n <=? 57))%N then Some (n - 48)%N else None.

Fixpoint digits_value (s : string) (acc : N) : option N :=
  match s with
  | EmptyString => Some acc
  | String a s' =>
      match digit_of a with
      | Some d => digits_value s' (10 * acc + d)%N
      | None => None
      end
  end.

(** An array index is the canonical decimal spelling of an integer in
    [0, 2^32 - 2]: no sign, no leading zero. *)
Definition array_index (k : string) : option N :=
  match k with
  | EmptyString => None
  | String a rest =>
      if (N_of_ascii a =? 48)%N
      then match rest with EmptyString => Some 0%N | _ => None end
      else match digits_value k 0 with
           | Some n => if (n <? 2 ^ 32 - 1)%N then Some n else None
           | None => None
           end
  end.

Definition is_array_index (k : string) : bool :=
  match array_index k with Some _ => true | None => false end.

Definition index_value (k : string) : N :=
  match array_index k with Some n => n | None => 0%N end.

(** [Object.entries(o)]: array-index keys first, by ascending value, then
    the other keys in creation order. *)
Definition Object_entries {V : Type} (o : obj V) : list (string * V) :=
  insertion_sort (fun x y => (index_value x.1 <=? index_value y.1)%N)
    (filter (fun kv => is_array_index kv.1 = true) o)
  ++ filter (fun kv => is_array_index kv.1 = false) o.

(** ** Data model *)

Module Seller.
Record t : Type := mk { id : string; first_name : string; last_name : string }.
End Seller.

Module Product.
Record t : Type := mk { sku : string; purchase_price : Q }.
End Product.

Module Item.
Record t : Type := mk { sku : string; discount : Q; sale_price : Q; quantity : Q }.
End Item.

Module Purchase.
Record t : Type := mk { seller_id : string; total_amount : Q; items : list Item.t }.
End Purchase.

(** The intermediate record of [sellerStats]. *)
Module Stat.
Record t : Type := mk {
  id : string;
  name : string;
  revenue : Q;
  profit : Q;
  sales_count : nat;
  products_sold : obj Q
}.
End Stat.

Module Top.
Record t : Type := mk { sku : string; quantity : Q }.
End Top.

Module Report.
Record t : Type := mk {
  seller_id : string;
  name : string;
  revenue : Q;
  profit : Q;
  sales_count : nat;
  top_products : list Top.t;
  bonus : Q
}.
End Report.

(** What [Array.isArray] sees in a field of [data]. *)
Inductive collection (A : Type) : Type :=
| NotArray
| IsArray (elements : list A).
Arguments NotArray {A}.
Arguments IsArray {A} elements.

Record Dataset : Type := mkDataset {
  sellers : collection Seller.t;
  products : collection Product.t;
  purchase_records : collection Purchase.t
}.

(** A field of [options]: absent or falsy, truthy but not a function, or a
    function.  The functions of the model return numbers; a function that
    returns anything else is outside it. *)
Inductive slot (F : Type) : Type :=
| Missing
| NotCallable
| Callable (f : F).
Arguments Missing {F}.
Arguments NotCallable {F}.
Arguments Callable {F} f.

Definition RevenueFn : Type := Item.t -> Product.t -> Q.
Definition BonusFn : Type := Z -> Z -> Stat.t -> Q.

(** The second argument: falsy, truthy with [typeof] other than
    ["object"], or an object with its two fields. *)
Inductive Options : Type :=
| OptionsAbsent
| OptionsNotObject
| OptionsObject (calculateRevenue : slot RevenueFn) (calculateBonus : slot BonusFn).

(** How a call ends: with the returned array, with an array in which a
    number is [NaN] or a quantity is a string, or with an exception. *)
Inductive result (A : Type) : Type :=
| Return (value : A)
| ReturnNaN
| Throw (message : string).
Arguments Return {A} value.
Arguments ReturnNaN {A}.
Arguments Throw {A} message.

(** The engine's error for a property read on [undefined]. *)
Definition TypeError : string := "TypeError".

(** ** The default strategies *)

Definition calculateSimpleRevenue (purchase : Item.t) (_product : Product.t) : Q :=
  let discountCoef := 1 - (Item.discount purchase / 100) in
  Item.sale_price purchase * Item.quantity purchase * discountCoef.

Definition calculateBonusByProfit (index total : Z) (seller : Stat.t) : Q :=
  let profit := Stat.profit seller in
  if (index =? 0)%Z then profit * 0.15
  else if ((index =? 1) || (index =? 2))%Z then profit * 0.10
  else if (index =? total - 1)%Z then 0
  else profit * 0.05.

(** ** [analyzeSalesData] *)

Section Analyze.
Variable calculateRevenue : RevenueFn.
Variable calculateBonus : BonusFn.

(** Step 3 of the preparation: one zeroed record per seller. *)
Definition init_stat (seller : Seller.t) : Stat.t :=
  {| Stat.id := Seller.id seller;
     Stat.name := Seller.first_name seller ++ " " ++ Seller.last_name seller;
     Stat.revenue := 0;
     Stat.profit := 0;
     Stat.sales_count := 0;
     Stat.products_sold := [] |}.

(** [sellerIndex]: id to reference into [sellerStats]. *)
Definition make_sellerIndex (sellerStats : list Stat.t) : obj nat :=
  fromEntries (imap (fun ref s => (Stat.id s, ref)) sellerStats).

(** [productIndex]: sku to product card. *)
Definition make_productIndex (products : list Product.t) : obj Product.t :=
  fromEntries (map (fun p => (Product.sku p, p)) products).

(** [if (!sold[sku]) sold[sku] = 0], for a [sku] that names no member of
    [Object.prototype], so that the read is an own read: [undefined] and
    [0] are falsy. *)
Definition ensure_entry (sold : obj Q) (sku : string) : obj Q :=
  match obj_get sold sku with
  | Some q => if Qeq_bool q 0 then obj_set sold sku 0 else sold
  | None => obj_set sold sku 0
  end.

(** [sold[sku] += quantity], on an own entry that exists. *)
Definition add_quantity (sold : obj Q) (sku : string) (quantity : Q) : obj Q :=
  match obj_get sold sku with
  | Some q => obj_set sold sku (q + quantity)
  | None => sold
  end.

(** Lines 153-157 on [products_sold], which starts as [{}].  For
    ["__proto__"] the read gives [Object.prototype], which is truthy, and
    the accessor ignores the string that [+=] writes: nothing changes.  For
    any other member of [Object.prototype] the read gives a function, which
    is truthy, and [+=] stores a string: [None].  Otherwise the entry is
    made if need be and the quantity added. *)
Definition note_quantity (sold : obj Q) (sku : string) (quantity : Q) : option (obj Q) :=
  if String.eqb sku "__proto__" then Some sold
  else if inherited sku then None
  else Some (add_quantity (ensure_entry sold sku) sku quantity).

(** The body of the inner [forEach], on the record [seller] refers to;
    [None] when a number of the record becomes [NaN] or a string.  An
    inherited member read as the product has no [purchase_price], so that
    the cost and the profit are [NaN]. *)
Definition sell_item (productIndex : obj Product.t) (seller : Stat.t) (item : Item.t) : option Stat.t :=
  match obj_read productIndex (Item.sku item) with
  | Undefined => Some seller
  | Inherited => None
  | Own product =>
      let cost := Product.purchase_price product * Item.quantity item in
      let revenue := calculateRevenue item product in
      let profit := revenue - cost in
      match note_quantity (Stat.products_sold seller) (Item.sku item)
              (Item.quantity item) with
      | Some sold =>
          Some {| Stat.id := Stat.id seller;
                  Stat.name := Stat.name seller;
                  Stat.revenue := Stat.revenue seller;
                  Stat.profit := Stat.profit seller + profit;
                  Stat.sales_count := Stat.sales_count seller;
                  Stat.products_sold := sold |}
      | None => None
      end
  end.

(** [record.items.forEach(...)]: a [NaN] stays. *)
Definition sell_items (productIndex : obj Product.t) (items : list Item.t)
    (seller : Stat.t) : option Stat.t :=
  fold_left (fun acc item => acc ≫= fun s => sell_item productIndex s item)
    items (Some seller).

(** [sales_count += 1; revenue += total_amount]. *)
Definition count_sale (record : Purchase.t) (seller : Stat.t) : Stat.t :=
  {| Stat.id := Stat.id seller;
     Stat.name := Stat.name seller;
     Stat.revenue := Stat.revenue seller + Purchase.total_amount record;
     Stat.profit := Stat.profit seller;
     Stat.sales_count := Stat.sales_count seller + 1;
     Stat.products_sold := Stat.products_sold seller |}.

(** [if (!product) return] lets the item through: the read is truthy. *)
Definition resolves (productIndex : obj Product.t) (item : Item.t) : bool :=
  match obj_read productIndex (Item.sku item) with
  | Undefined => false
  | _ => true
  end.

(** Where the outer [forEach] stands: the records hold numbers, some
    record holds a [NaN] or a string, or an exception has ended the loop. *)
Inductive loop : Type :=
| Numbers (sellerStats : list Stat.t)
| NaNs
| Thrown (message : string).

(** The body of the outer [forEach].  When [seller] is a member of
    [Object.prototype], the two [+=] write on that member, and the first
    item that gets through reads [seller.products_sold[...]] with
    [seller.products_sold] undefined: a [TypeError]. *)
Definition process_record (sellerIndex : obj nat) (productIndex : obj Product.t)
    (state : loop) (record : Purchase.t) : loop :=
  match state with
  | Thrown message => Thrown message
  | _ =>
      match obj_read sellerIndex (Purchase.seller_id record) with
      | Undefined => state
      | Inherited =>
          if existsb (resolves productIndex) (Purchase.items record)
          then Thrown TypeError
          else state
      | Own ref =>
          match state with
          | Numbers sellerStats =>
              match sellerStats !! ref with
              | Some seller =>
                  match sell_items productIndex (Purchase.items record)
                          (count_sale record seller) with
                  | Some seller' => Numbers (<[ref := seller']> sellerStats)
                  | None => NaNs
                  end
              | None => state
              end
          | _ => state
          end
      end
  end.

(** The double loop, from the zeroed records. *)
Definition run_loop (sellers : list Seller.t) (products : list Product.t)
    (records : list Purchase.t) : loop :=
  let sellerStats := map init_stat sellers in
  let sellerIndex := make_sellerIndex sellerStats in
  let productIndex := make_productIndex products in
  fold_left (process_record sellerIndex productIndex) records (Numbers sellerStats).

(** *** The loop within the numbers

    The same steps as total functions on the records: what an item, a
    purchase record and the whole loop do to [sellerStats] while no number
    becomes [NaN] and no quantity a string.  Every read of an index is then
    an own read or [undefined], and the one member of [Object.prototype]
    that the sku of an item of a known product can name is ["__proto__"],
    for which [products_sold] stays as it is.  [run_loop] ends in [Numbers]
    only with the array these give ([run_loop_spec], [run_loop_Numbers]). *)

Definition tally_item (productIndex : obj Product.t) (seller : Stat.t) (item : Item.t) : Stat.t :=
  match obj_get productIndex (Item.sku item) with
  | None => seller
  | Some product =>
      let cost := Product.purchase_price product * Item.quantity item in
      let revenue := calculateRevenue item product in
      let profit := revenue - cost in
      {| Stat.id := Stat.id seller;
         Stat.name := Stat.name seller;
         Stat.revenue := Stat.revenue seller;
         Stat.profit := Stat.profit seller + profit;
         Stat.sales_count := Stat.sales_count seller;
         Stat.products_sold :=
           if inherited (Item.sku item) then Stat.products_sold seller
           else add_quantity (ensure_entry (Stat.products_sold seller) (Item.sku item))
                  (Item.sku item) (Item.quantity item) |}
  end.

Definition tally_record (productIndex : obj Product.t) (record : Purchase.t) (seller : Stat.t) : Stat.t :=
  fold_left (tally_item productIndex) (Purchase.items record) (count_sale record seller).

Definition tally (sellerIndex : obj nat) (productIndex : obj Product.t)
    (sellerStats : list Stat.t) (record : Purchase.t) : list Stat.t :=
  match obj_get sellerIndex (Purchase.seller_id record) with
  | None => sellerStats
  | Some ref => alter (tally_record productIndex record) ref sellerStats
  end.

(** [sellerStats] when the double loop has ended within the numbers. *)
Definition aggregate (sellers : list Seller.t) (products : list Product.t)
    (records : list Purchase.t) : list Stat.t :=
  let sellerStats := map init_stat sellers in
  let sellerIndex := make_sellerIndex sellerStats in
  let productIndex := make_productIndex products in
  fold_left (tally sellerIndex productIndex) records sellerStats.

(** [sellerStats.sort((a, b) => b.profit - a.profit)]. *)
Definition sort_by_profit (sellerStats : list Stat.t) : list Stat.t :=
  Array_sort (fun a b => Stat.profit b - Stat.profit a) sellerStats.

(** [([sku, quantity]) => ({ sku, quantity })]. *)
Definition to_pair (entry : string * Q) : Top.t :=
  {| Top.sku := entry.1; Top.quantity := entry.2 |}.

(** [Object.entries(sold).map(...).sort(...).slice(0, 10)]. *)
Definition top_products_of (sold : obj Q) : list Top.t :=
  take 10
    (Array_sort (fun a b => Top.quantity b - Top.quantity a)
       (map to_pair (Object_entries sold))).

(** A ranked seller: the record with the two fields added in step 3. *)
Record Ranked : Type := mkRanked {
  stat : Stat.t;
  bonus : Q;
  top_products : list Top.t
}.

Definition rank (sellerStats : list Stat.t) : list Ranked :=
  imap (fun index seller =>
          {| stat := seller;
             bonus := calculateBonus (Z.of_nat index) (Z.of_nat (length sellerStats)) seller;
             top_products := top_products_of (Stat.products_sold seller) |})
       sellerStats.

(** [x.toFixed(2)] read back with unary [+]: the integer [n] for which
    [n / 100] is nearest to [x], the larger one on a tie, after the sign
    has been set aside. *)
Definition toFixed2 (x : Q) : Q :=
  if Qle_bool 0 x
  then inject_Z (Qfloor (x * 100 + (1 # 2))) / 100
  else - (inject_Z (Qfloor (- x * 100 + (1 # 2))) / 100).

Definition project (seller : Ranked) : Report.t :=
  {| Report.seller_id := Stat.id (stat seller);
     Report.name := Stat.name (stat seller);
     Report.revenue := toFixed2 (Stat.revenue (stat seller));
     Report.profit := toFixed2 (Stat.profit (stat seller));
     Report.sales_count := Stat.sales_count (stat seller);
     Report.top_products := top_products seller;
     Report.bonus := toFixed2 (bonus seller) |}.

Definition report (sellers : list Seller.t) (products : list Product.t)
    (records : list Purchase.t) : list Report.t :=
  map project (rank (sort_by_profit (aggregate sellers products records))).

(** Everything after the checks: the loop, the sort, the bonuses and top
    products, the projection. *)
Definition business_logic (sellers : list Seller.t) (products : list Product.t)
    (records : list Purchase.t) : result (list Report.t) :=
  match run_loop sellers products records with
  | Numbers sellerStats => Return (map project (rank (sort_by_profit sellerStats)))
  | NaNs => ReturnNaN
  | Thrown message => Throw message
  end.

End Analyze.

Definition is_nil {A : Type} (l : list A) : bool :=
  match l with [] => true | _ => false end.

Definition analyzeSalesData (data : option Dataset) (options : Options) : result (list Report.t) :=
  match data with
  | Some {| sellers := IsArray sellers;
            products := IsArray products;
            purchase_records := IsArray records |} =>
      if is_nil sellers || is_nil products || is_nil records
      then Throw "Некорректные входные данные"
      else
        match options with
        | OptionsObject (Callable calculateRevenue) (Callable calculateBonus) =>
            business_logic calculateRevenue calculateBonus sellers products records
        | OptionsObject _ _ => Throw "Не переданы функции расчёта"
        | _ => Throw "Некорректные опции"
        end
  | _ => Throw "Некорректные входные данные"
  end.

(** ** The ways out of the numbers *)

(** The item keeps the record within the numbers: its sku is unknown, or
    it is the own key of a product and either ["__proto__"] or no member
    of [Object.prototype]. *)
Definition numeric_item (productIndex : obj Product.t) (item : Item.t) : bool :=
  match obj_read productIndex (Item.sku item) with
  | Undefined => true
  | Inherited => false
  | Own _ => String.eqb (Item.sku item) "__proto__" || negb (inherited (Item.sku item))
  end.

(** The record ends the loop with a [TypeError]: its [seller_id] reads a
    member of [Object.prototype] and one of its items gets through. *)
Definition throws_at (sellerIndex : obj nat) (productIndex : obj Product.t)
    (r : Purchase.t) : bool :=
  match obj_read sellerIndex (Purchase.seller_id r) with
  | Inherited => existsb (resolves productIndex) (Purchase.items r)
  | _ => false
  end.

(** The record puts a [NaN] or a string in its seller's record. *)
Definition poisons (sellerIndex : obj nat) (productIndex : obj Product.t)
    (r : Purchase.t) : bool :=
  match obj_read sellerIndex (Purchase.seller_id r) with
  | Own _ => negb (forallb (numeric_item productIndex) (Purchase.items r))
  | _ => false
  end.

(** ** Specification vocabulary *)

(** [y] is [x] rounded to two decimals, a tie going away from zero: [y] is
    a whole number of hundredths, no further than half a hundredth from
    [x], and when it is exactly that far it is the larger in magnitude. *)
Definition rounds_half_away (x y : Q) : Prop :=
  (exists n : Z, y == inject_Z n / 100) /\
  Qabs (y - x) <= 1 # 200 /\
  (Qabs (y - x) == 1 # 200 -> Qabs x < Qabs y).

(** The sum of the [total_amount] fields, added in array order from 0. *)
Definition sum_amounts (records : list Purchase.t) : Q :=
  fold_left (fun acc r => acc + Purchase.total_amount r) records 0.

(** The profit of one item: the strategy's revenue less the cost, for an
    item whose sku the product index knows; other items add nothing. *)
Definition add_item_profit (calculateRevenue : RevenueFn)
    (productIndex : obj Product.t) (acc : Q) (item : Item.t) : Q :=
  match obj_get productIndex (Item.sku item) with
  | Some product =>
      acc + (calculateRevenue item product
             - Product.purchase_price product * Item.quantity item)
  | None => acc
  end.

(** The item profits of a run of records, added in order from 0. *)
Definition sum_profits (calculateRevenue : RevenueFn)
    (productIndex : obj Product.t) (records : list Purchase.t) : Q :=
  fold_left
    (fun acc r =>
       fold_left (add_item_profit calculateRevenue productIndex)
         (Purchase.items r) acc)
    records 0.

(** The purchase records the seller index sends to position [j]. *)
Definition records_of (sellers : list Seller.t) (j : nat)
    (records : list Purchase.t) : list Purchase.t :=
  filter (fun r =>
            obj_get (make_sellerIndex (map init_stat sellers))
              (Purchase.seller_id r) = Some j)
    records.

(** A collection is acceptable when it is an array with an element. *)
Definition proper_sequence {A : Type} (c : collection A) : Prop :=
  exists x l, c = IsArray (x :: l).

Definition well_formed_data (data : option Dataset) : Prop :=
  exists d, data = Some d /\ proper_sequence (sellers d) /\
    proper_sequence (products d) /\ proper_sequence (purchase_records d).

Definition callable {F : Type} (s : slot F) : Prop := exists f, s = Callable f.





(** The [seller_id] of the record is the id of an input seller, or else
    names no member of [Object.prototype]. *)
Definition plain_seller_id (sellers : list Seller.t) (r : Purchase.t) : Prop :=
  Purchase.seller_id r ∈ map Seller.id sellers \/
  inherited (Purchase.seller_id r) = false.

(** No sku of the record's items names a member of [Object.prototype]. *)
Definition plain_skus (r : Purchase.t) : Prop :=
  Forall (fun item => inherited (Item.sku item) = false) (Purchase.items r).

(** The record of the seller at position [j] when the loop has ended, as
    the purchase records sent to [j] build it. *)
Definition final_stat (calculateRevenue : RevenueFn) (sellers : list Seller.t)
    (products : list Product.t) (records : list Purchase.t)
    (j : nat) (seller : Seller.t) : Stat.t :=
  fold_left
    (fun s r => tally_record calculateRevenue (make_productIndex products) r s)
    (records_of sellers j records) (init_stat seller).

(** A seller record that carries nothing but a profit. *)
Definition stat_of_profit (p : Q) : Stat.t :=
  {| Stat.id := EmptyString; Stat.name := EmptyString; Stat.revenue := 0; Stat.profit := p;
     Stat.sales_count := 0; Stat.products_sold := [] |}.

(** The bonuses the default strategy gives to an already ranked array. *)
Definition default_bonuses (ranked : list Stat.t) : list Q :=
  imap (fun index seller =>
          calculateBonusByProfit (Z.of_nat index) (Z.of_nat (length ranked)) seller)
       ranked.

(** The skus a seller sold, item after item: those of the items whose sku
    is the sku of a product and names no member of [Object.prototype],
    over a run of purchase records. *)
Definition sold_skus (productIndex : obj Product.t)
    (records : list Purchase.t) : list string :=
  flat_map
    (fun r =>
       map Item.sku
         (filter (fun item =>
                    is_Some (obj_get productIndex (Item.sku item)) /\
                    inherited (Item.sku item) = false)
            (Purchase.items r)))
    records.

(** The distinct members of a list in the order they are first met. *)
Definition note_sku (seen : list string) (k : string) : list string :=
  if bool_decide (k ∈ seen) then seen else seen ++ [k].

Definition first_seen (skus : list string) : list string :=
  fold_left note_sku skus [].

(** The top products as the specification words them: the pairs of the
    mapping, taken in the order [seen], sorted by descending quantity with
    ties left in that order, cut to ten. *)
Definition top_products_in_order (sold : obj Q) (seen : list string) : list Top.t :=
  take 10
    (Array_sort (fun a b => Top.quantity b - Top.quantity a)
       (omap (fun k => (fun q => Top.mk k q) <$> obj_get sold k) seen)).

(** [entries] lists the properties of [sold] in enumeration order: the
    array-index keys first, by ascending value, then the other keys as
    they stand in [sold], that is in creation order. *)
Definition enumerates (sold : obj Q) (entries : list (string * Q)) : Prop :=
  exists indexed,
    entries = indexed ++ filter (fun kv => is_array_index kv.1 = false) sold /\
    indexed ≡ₚ filter (fun kv => is_array_index kv.1 = true) sold /\
    Sorted (fun x y => (index_value x.1 <= index_value y.1)%N) indexed.

(** [sorted] is [pairs] put in descending order of quantity, pairs of equal
    quantity keeping the order they have in [pairs]. *)
Definition stably_sorted_by_quantity (pairs sorted : list Top.t) : Prop :=
  sorted ≡ₚ pairs /\
  Sorted (fun a b => Top.quantity b <= Top.quantity a) sorted /\
  forall q,
    filter (fun a => Top.quantity a == q) sorted
    = filter (fun a => Top.quantity a == q) pairs.

(** A call with three arrays and two functions. *)
Definition call (calculateRevenue : RevenueFn) (calculateBonus : BonusFn)
    (sellers : list Seller.t) (products : list Product.t)
    (records : list Purchase.t) : result (list Report.t) :=
  analyzeSalesData
    (Some (mkDataset (IsArray sellers) (IsArray products) (IsArray records)))
    (OptionsObject (Callable calculateRevenue) (Callable calculateBonus)).

(** [sold[sku]] read as a number: 0 while the property is absent. *)
Definition quantity_sold (sold : obj Q) (sku : string) : Q :=
  match obj_get sold sku with Some q => q | None => 0 end.

(** The quantity one item adds for [sku]: its own, when it carries that
    sku and the product index knows it. *)
Definition add_item_quantity (productIndex : obj Product.t) (sku : string)
    (acc : Q) (item : Item.t) : Q :=
  match obj_get productIndex (Item.sku item) with
  | Some _ =>
      if String.eqb (Item.sku item) sku then acc + Item.quantity item else acc
  | None => acc
  end.

(** The quantities of [sku] over a run of records, added in order from 0. *)
Definition sum_quantities (productIndex : obj Product.t) (sku : string)
    (records : list Purchase.t) : Q :=
  fold_left
    (fun acc r =>
       fold_left (add_item_quantity productIndex sku) (Purchase.items r) acc)
    records 0.

(** A purchase record without the items whose sku the product index does
    not know. *)
Definition strip_record (productIndex : obj Product.t) (r : Purchase.t) : Purchase.t :=
  Purchase.mk (Purchase.seller_id r) (Purchase.total_amount r)
    (filter (fun item => is_Some (obj_get productIndex (Item.sku item)))
       (Purchase.items r)).

(** The purchase records without any dangling reference: the records of
    unknown sellers are dropped, and so are the items of unknown skus. *)
Definition clean_records (sellers : list Seller.t) (products : list Product.t)
    (records : list Purchase.t) : list Purchase.t :=
  map (strip_record (make_productIndex products))
    (filter (fun r => Purchase.seller_id r ∈ map Seller.id sellers) records).

(** The two product indexes hold the same for every sku of the record's
    items. *)
Definition same_reads (productIndex productIndex' : obj Product.t)
    (r : Purchase.t) : Prop :=
  Forall (fun item =>
            obj_get productIndex (Item.sku item)
            = obj_get productIndex' (Item.sku item))
    (Purchase.items r).

(** ** A small data set *)

Definition demo_sellers : list Seller.t :=
  [ Seller.mk "seller_1" "Alexey" "Petrov";
    Seller.mk "seller_2" "Mikhail" "Nikolaev" ].

Definition demo_products : list Product.t :=
  [ Product.mk "SKU_001" 10; Product.mk "SKU_002" 20 ].

Definition demo_record_1 : Purchase.t :=
  Purchase.mk "seller_1" 100
    [ Item.mk "SKU_001" 0 15 2; Item.mk "SKU_404" 0 1 1; Item.mk "SKU_002" 10 30 1 ].

(** A record of a seller that is not in [demo_sellers]. *)
Definition demo_record_dangling : Purchase.t :=
  Purchase.mk "seller_9" 500 [ Item.mk "SKU_001" 0 15 2 ].

Definition demo_record_2 : Purchase.t :=
  Purchase.mk "seller_2" (3333 # 100) [ Item.mk "SKU_002" 0 25 3 ].

Definition demo_records : list Purchase.t :=
  [ demo_record_1; demo_record_dangling; demo_record_2 ].

(** ** A data set with numeric skus *)

Definition tie_sellers : list Seller.t := [ Seller.mk "seller_1" "Alexey" "Petrov" ].

Definition tie_products : list Product.t := [ Product.mk "2" 10; Product.mk "1" 20 ].

(** Sku "2" is sold first, sku "1" second, five of each. *)
Definition tie_records : list Purchase.t :=
  [ Purchase.mk "seller_1" 200 [ Item.mk "2" 0 15 5; Item.mk "1" 0 25 5 ] ].

(** ** A data set with a repeated seller id *)




(** ** A data set with a seller who sold nothing *)

Definition idle_seller : Seller.t := Seller.mk "seller_3" "Pavel" "Sidorov".

Definition idle_sellers : list Seller.t := demo_sellers ++ [ idle_seller ].

(** ** Purchase records that name members of [Object.prototype] *)

(** The [seller_id] is the id of no seller in [demo_sellers]. *)
Definition toString_record : Purchase.t :=
  Purchase.mk "toString" 50 [ Item.mk "SKU_001" 0 15 1 ].

(** The second sku is the sku of no product in [demo_products]. *)
Definition constructor_record : Purchase.t :=
  Purchase.mk "seller_1" 50 [ Item.mk "SKU_001" 0 15 1; Item.mk "constructor" 0 1 1 ].

(** * Properties *)

(** ** The default bonus strategy *)

(** C1. With the default strategy, for every seller record, every total
    [n >= 1] and every rank [index >= 0]: rank 0 earns 15% of the seller's
    profit, ranks 1 and 2 earn 10%, rank [n - 1] earns nothing when it is
    none of 0, 1, 2, and every other rank earns 5%.  The tests are tried in
    that order, so a single seller earns 15%, and five sellers with profits
    1000, 800, 600, 400, 200 earn 150, 80, 60, 20, 0. *)
Theorem calculateBonusByProfit_precedence (seller : Stat.t) (n index : Z) :
  (1 <= n)%Z -> (0 <= index)%Z ->
  (index = 0%Z ->
     calculateBonusByProfit index n seller = Stat.profit seller * 0.15) /\
  (index = 1%Z \/ index = 2%Z ->
     calculateBonusByProfit index n seller = Stat.profit seller * 0.10) /\
  (index = (n - 1)%Z -> index <> 0%Z -> index <> 1%Z -> index <> 2%Z ->
     calculateBonusByProfit index n seller = 0) /\
  (index <> 0%Z -> index <> 1%Z -> index <> 2%Z -> index <> (n - 1)%Z ->
     calculateBonusByProfit index n seller = Stat.profit seller * 0.05) /\
  (n = 1%Z ->
     calculateBonusByProfit 0 n seller = Stat.profit seller * 0.15) /\
  Forall2 Qeq
    (default_bonuses (map stat_of_profit [1000; 800; 600; 400; 200]))
    [150; 80; 60; 20; 0].
Proof.
  intros _ _. unfold calculateBonusByProfit.
  repeat split.
  - intros ->. reflexivity.
  - intros [-> | ->]; reflexivity.
  - intros Hlast H0 H1 H2.
    apply Z.eqb_neq in H0, H1, H2. rewrite H0, H1, H2. simpl.
    apply Z.eqb_eq in Hlast. rewrite Hlast. reflexivity.
  - intros H0 H1 H2 Hlast.
    apply Z.eqb_neq in H0, H1, H2, Hlast. rewrite H0, H1, H2, Hlast. reflexivity.
  - repeat constructor.
Qed.

Lemma calculateBonusByProfit_precedence_witness :
  calculateBonusByProfit 3 5 (stat_of_profit 400) = 400 * 0.05.
Proof.
  apply (calculateBonusByProfit_precedence (stat_of_profit 400) 5 3); lia.
Defined.

(** ** Dictionaries *)

Section ObjFacts.
Context {V : Type}.
Implicit Types (o : obj V) (k : string) (v : V).

Lemma obj_get_set o k v k' :
  obj_get (obj_set o k v) k' = if String.eqb k k' then Some v else obj_get o k'.
Proof.
  induction o as [| [k0 v0] o IH]; simpl.
  - by destruct (String.eqb k k').
  - destruct (String.eqb k0 k) eqn:E0; simpl.
    + apply String.eqb_eq in E0 as ->.
      by destruct (String.eqb k k').
    + rewrite IH. destruct (String.eqb k0 k') eqn:E1; [| done].
      apply String.eqb_eq in E1 as ->. by rewrite String.eqb_sym, E0.
Qed.

Lemma obj_get_set_eq o k v : obj_get (obj_set o k v) k = Some v.
Proof. by rewrite obj_get_set, String.eqb_refl. Qed.

Lemma obj_get_set_ne o k v k' :
  k <> k' -> obj_get (obj_set o k v) k' = obj_get o k'.
Proof. intros Hne. rewrite obj_get_set. by apply String.eqb_neq in Hne as ->. Qed.

Lemma fromEntries_snoc (entries : list (string * V)) k v :
  fromEntries (entries ++ [(k, v)]) = obj_set (fromEntries entries) k v.
Proof. unfold fromEntries. by rewrite fold_left_app. Qed.

(** Reading [Object.fromEntries] of keyed elements: the last element that
    carries the key is the one found. *)
Lemma fromEntries_imap_Some {A} (key : A -> string) (val : nat -> A -> V) l k v :
  obj_get (fromEntries (imap (fun i x => (key x, val i x)) l)) k = Some v ->
  exists l1 x l2,
    l = l1 ++ x :: l2 /\ key x = k /\ v = val (length l1) x /\
    Forall (fun y => key y <> k) l2.
Proof.
  revert v. induction l as [| x l IH] using rev_ind; intros v.
  - done.
  - rewrite imap_app. simpl. rewrite fromEntries_snoc, obj_get_set.
    rewrite Nat.add_0_r.
    destruct (String.eqb (key x) k) eqn:E.
    + intros [= <-]. apply String.eqb_eq in E.
      exists l, x, []. by rewrite Forall_nil.
    + intros (l1 & y & l2 & -> & Hk & Hv & Hl2)%IH.
      apply String.eqb_neq in E.
      exists l1, y, (l2 ++ [x]). rewrite <- app_assoc. simpl.
      split_and!; try done.
      apply Forall_app. split; [done |]. by apply Forall_singleton.
Qed.

Lemma fromEntries_imap_None {A} (key : A -> string) (val : nat -> A -> V) l k :
  obj_get (fromEntries (imap (fun i x => (key x, val i x)) l)) k = None <->
  Forall (fun y => key y <> k) l.
Proof.
  induction l as [| x l IH] using rev_ind.
  - split; [by constructor | done].
  - rewrite imap_app. simpl. rewrite fromEntries_snoc, obj_get_set.
    rewrite Forall_app, Forall_singleton.
    destruct (String.eqb (key x) k) eqn:E.
    + apply String.eqb_eq in E. split; [done | tauto].
    + apply String.eqb_neq in E. rewrite IH. tauto.
Qed.

Lemma fromEntries_imap_last {A} (key : A -> string) (val : nat -> A -> V) l1 x l2 :
  Forall (fun y => key y <> key x) l2 ->
  obj_get (fromEntries (imap (fun i y => (key y, val i y)) (l1 ++ x :: l2))) (key x)
  = Some (val (length l1) x).
Proof.
  intros Hl2.
  destruct (obj_get _ _) as [v |] eqn:E.
  - apply fromEntries_imap_Some in E as (l1' & x' & l2' & Heq & Hk & -> & Hl2').
    f_equal.
    destruct (decide (length l1 = length l1')) as [Hlen | Hlen].
    + apply app_inj_1 in Heq as [_ [= ->]]; [| done]. by rewrite Hlen.
    + exfalso.
      assert (Hx : (l1 ++ x :: l2) !! length l1 = Some x)
        by (by rewrite list_lookup_middle).
      assert (Hx' : (l1 ++ x :: l2) !! length l1' = Some x')
        by (rewrite Heq; by rewrite list_lookup_middle).
      destruct (decide (length l1 < length l1')%nat).
      * rewrite lookup_app_r, lookup_cons_ne_0 in Hx' by lia.
        apply list_elem_of_lookup_2 in Hx'.
        rewrite Forall_forall in Hl2. by apply (Hl2 x').
      * rewrite Heq in Hx.
        rewrite lookup_app_r, lookup_cons_ne_0 in Hx by lia.
        apply list_elem_of_lookup_2 in Hx.
        rewrite Forall_forall in Hl2'. by apply (Hl2' x).
  - apply fromEntries_imap_None in E.
    rewrite Forall_app, Forall_cons in E. tauto.
Qed.

End ObjFacts.

(** ** The double loop, seen from one seller *)

Section AggregateFacts.
Variable calculateRevenue : RevenueFn.
Implicit Types (sellerIndex : obj nat) (productIndex : obj Product.t).
Implicit Types (sellerStats : list Stat.t) (records : list Purchase.t).

Lemma tally_length sellerIndex productIndex sellerStats record :
  length (tally calculateRevenue sellerIndex productIndex sellerStats record)
  = length sellerStats.
Proof.
  unfold tally. destruct (obj_get _ _); [| done].
  apply length_alter.
Qed.

Lemma fold_tally_length sellerIndex productIndex records sellerStats :
  length (fold_left (tally calculateRevenue sellerIndex productIndex)
            records sellerStats)
  = length sellerStats.
Proof.
  revert sellerStats. induction records as [| r records IH]; intros; simpl.
  - done.
  - by rewrite IH, tally_length.
Qed.

(** The record at position [j] only sees the purchase records whose
    [seller_id] the index sends to [j], one after another. *)
Lemma fold_tally_lookup sellerIndex productIndex records sellerStats j :
  fold_left (tally calculateRevenue sellerIndex productIndex)
    records sellerStats !! j
  = (fun seller =>
       fold_left (fun s r => tally_record calculateRevenue productIndex r s)
         (filter (fun r => obj_get sellerIndex (Purchase.seller_id r) = Some j) records)
         seller) <$> sellerStats !! j.
Proof.
  revert sellerStats. induction records as [| r records IH]; intros; simpl.
  - by destruct (sellerStats !! j).
  - rewrite IH. unfold tally.
    destruct (obj_get sellerIndex (Purchase.seller_id r)) as [ref |] eqn:E.
    + rewrite list_lookup_alter. case_decide as Hj.
      * subst ref. rewrite filter_cons_True by done.
        by destruct (sellerStats !! j).
      * rewrite filter_cons_False; [done |]. congruence.
    + rewrite filter_cons_False; [done |]. congruence.
Qed.

Lemma aggregate_length sellers products records :
  length (aggregate calculateRevenue sellers products records) = length sellers.
Proof. unfold aggregate. by rewrite fold_tally_length, length_map. Qed.

Lemma aggregate_lookup sellers products records j :
  aggregate calculateRevenue sellers products records !! j
  = (fun seller =>
       fold_left
         (fun s r => tally_record calculateRevenue (make_productIndex products) r s)
         (filter (fun r =>
                    obj_get (make_sellerIndex (map init_stat sellers))
                      (Purchase.seller_id r) = Some j) records)
         (init_stat seller)) <$> sellers !! j.
Proof.
  unfold aggregate. rewrite fold_tally_lookup, list_lookup_fmap.
  by destruct (sellers !! j).
Qed.

(** What a run of items and of records leaves alone or adds up. *)

Lemma tally_items_fixed productIndex items seller :
  let s' := fold_left (tally_item calculateRevenue productIndex) items seller in
  Stat.id s' = Stat.id seller /\ Stat.name s' = Stat.name seller /\
  Stat.revenue s' = Stat.revenue seller /\
  Stat.sales_count s' = Stat.sales_count seller.
Proof.
  revert seller. induction items as [| item items IH]; intros seller; simpl.
  - done.
  - destruct (IH (tally_item calculateRevenue productIndex seller item))
      as (-> & -> & -> & ->).
    unfold tally_item. by destruct (obj_get _ _).
Qed.

Lemma tally_record_fixed productIndex record seller :
  let s' := tally_record calculateRevenue productIndex record seller in
  Stat.id s' = Stat.id seller /\ Stat.name s' = Stat.name seller /\
  Stat.revenue s' = Stat.revenue seller + Purchase.total_amount record /\
  Stat.sales_count s' = (Stat.sales_count seller + 1)%nat.
Proof.
  unfold tally_record.
  by destruct (tally_items_fixed productIndex (Purchase.items record)
                 (count_sale record seller)) as (-> & -> & -> & ->).
Qed.

Lemma tally_records_fixed productIndex records seller :
  let s' := fold_left (fun s r => tally_record calculateRevenue productIndex r s)
              records seller in
  Stat.id s' = Stat.id seller /\ Stat.name s' = Stat.name seller /\
  Stat.revenue s'
    = fold_left (fun acc r => acc + Purchase.total_amount r) records
        (Stat.revenue seller) /\
  Stat.sales_count s' = (Stat.sales_count seller + length records)%nat.
Proof.
  revert seller. induction records as [| r records IH]; intros seller; simpl.
  - split_and!; try done; lia.
  - destruct (IH (tally_record calculateRevenue productIndex r seller))
      as (-> & -> & -> & ->).
    destruct (tally_record_fixed productIndex r seller) as (-> & -> & -> & ->).
    split_and!; try done; lia.
Qed.

End AggregateFacts.

(** ** Sorting *)

Section SortFacts.
Context {A : Type}.
Variable before : A -> A -> bool.

Lemma insert_sorted_Permutation x (l : list A) :
  insert_sorted before x l ≡ₚ x :: l.
Proof.
  induction l as [| y l IH]; simpl.
  - done.
  - destruct (before x y); [done |].
    rewrite IH. apply perm_swap.
Qed.

Lemma insertion_sort_Permutation (l : list A) : insertion_sort before l ≡ₚ l.
Proof.
  induction l as [| x l IH]; simpl.
  - done.
  - by rewrite insert_sorted_Permutation, IH.
Qed.

Lemma insertion_sort_length (l : list A) :
  length (insertion_sort before l) = length l.
Proof. by rewrite insertion_sort_Permutation. Qed.

Section Order.
Variable R : relation A.
Hypothesis before_R : forall x y, before x y = true -> R x y.
Hypothesis not_before_R : forall x y, before x y = false -> R y x.

Lemma insert_sorted_Sorted x (l : list A) :
  Sorted R l -> Sorted R (insert_sorted before x l).
Proof.
  induction 1 as [| y l Hl IH Hy]; simpl.
  - by repeat constructor.
  - destruct (before x y) eqn:E.
    + repeat constructor; auto.
    + constructor; [done |].
      destruct Hy as [| z l Hz]; simpl.
      * constructor. auto.
      * destruct (before x z); constructor; auto.
Qed.

Lemma insertion_sort_Sorted (l : list A) : Sorted R (insertion_sort before l).
Proof.
  induction l as [| x l IH]; simpl.
  - constructor.
  - by apply insert_sorted_Sorted.
Qed.

End Order.

(** Stability: the elements of a class whose members may all stay before
    one another come out in the order they went in. *)
Section Stable.
Variable P : A -> Prop.
Context `{!forall x, Decision (P x)}.
Hypothesis before_class : forall x y, P x -> P y -> before x y = true.

Lemma insert_sorted_filter x (l : list A) :
  filter P (insert_sorted before x l) = filter P (x :: l).
Proof.
  induction l as [| y l IH]; simpl.
  - done.
  - destruct (before x y) eqn:E; [done |].
    rewrite filter_cons, IH, !filter_cons.
    destruct (decide (P y)) as [Hy |]; [| done].
    destruct (decide (P x)) as [Hx |]; [| done].
    rewrite before_class in E by done. done.
Qed.

Lemma insertion_sort_stable (l : list A) :
  filter P (insertion_sort before l) = filter P l.
Proof.
  induction l as [| x l IH]; simpl.
  - done.
  - by rewrite insert_sorted_filter, !filter_cons, IH.
Qed.

End Stable.

End SortFacts.

(** ** Rounding *)

Lemma floor_bounds (x : Q) :
  inject_Z (Qfloor x) <= x /\ x < inject_Z (Qfloor x) + 1.
Proof.
  split; [apply Qfloor_le |].
  pose proof (Qlt_floor x) as H.
  rewrite inject_Z_plus in H. exact H.
Qed.

Lemma div_100 (q : Q) : q / 100 == q * (1 # 100).
Proof. field. Qed.

Lemma toFixed2_nonneg (x : Q) :
  0 <= x -> toFixed2 x = inject_Z (Qfloor (x * 100 + (1 # 2))) / 100.
Proof.
  intros Hx. unfold toFixed2.
  apply Qle_bool_iff in Hx. by rewrite Hx.
Qed.

Lemma toFixed2_neg (x : Q) :
  x < 0 -> toFixed2 x = - (inject_Z (Qfloor (- x * 100 + (1 # 2))) / 100).
Proof.
  intros Hx. unfold toFixed2.
  destruct (Qle_bool 0 x) eqn:E; [| done].
  apply Qle_bool_iff in E. lra.
Qed.

Lemma toFixed2_rounds (x : Q) : rounds_half_away x (toFixed2 x).
Proof.
  destruct (Qlt_le_dec x 0) as [Hx | Hx].
  - rewrite toFixed2_neg by done.
    set (m := Qfloor (- x * 100 + (1 # 2))).
    destruct (floor_bounds (- x * 100 + (1 # 2))) as [Hlo Hhi]. fold m in Hlo, Hhi.
    pose proof (div_100 (inject_Z m)) as Hdiv.
    split_and!.
    + exists (- m)%Z. rewrite inject_Z_opp. field.
    + apply Qabs_Qle_condition. split; lra.
    + intros Htie.
      assert (Hy : - (inject_Z m / 100) - x == - (1 # 200)).
      { destruct (Qlt_le_dec (- (inject_Z m / 100) - x) 0) as [Hneg | Hpos].
        - rewrite Qabs_neg in Htie by lra. lra.
        - rewrite Qabs_pos in Htie by lra. lra. }
      rewrite (Qabs_neg x), Qabs_neg by lra. lra.
  - rewrite toFixed2_nonneg by done.
    set (n := Qfloor (x * 100 + (1 # 2))).
    destruct (floor_bounds (x * 100 + (1 # 2))) as [Hlo Hhi]. fold n in Hlo, Hhi.
    pose proof (div_100 (inject_Z n)) as Hdiv.
    split_and!.
    + by exists n.
    + apply Qabs_Qle_condition. split; lra.
    + intros Htie.
      assert (Hy : inject_Z n / 100 - x == 1 # 200).
      { destruct (Qlt_le_dec (inject_Z n / 100 - x) 0) as [Hneg | Hpos].
        - rewrite Qabs_neg in Htie by lra. lra.
        - rewrite Qabs_pos in Htie by lra. lra. }
      rewrite (Qabs_pos x), Qabs_pos by lra. lra.
Qed.

Lemma floor_mono (x y : Q) :
  x <= y -> inject_Z (Qfloor x) <= inject_Z (Qfloor y).
Proof. intros H. rewrite <- Zle_Qle. by apply Qfloor_resp_le. Qed.

Lemma toFixed2_mono (x y : Q) : x <= y -> toFixed2 x <= toFixed2 y.
Proof.
  intros Hxy.
  destruct (Qlt_le_dec x 0) as [Hx | Hx], (Qlt_le_dec y 0) as [Hy | Hy].
  - rewrite !toFixed2_neg by done.
    assert (H := floor_mono (- y * 100 + (1 # 2)) (- x * 100 + (1 # 2))).
    rewrite !div_100. lra.
  - rewrite toFixed2_neg, toFixed2_nonneg by done.
    assert (H1 := floor_mono 0 (- x * 100 + (1 # 2))).
    assert (H2 := floor_mono 0 (y * 100 + (1 # 2))).
    change (inject_Z (Qfloor 0)) with 0 in H1, H2.
    rewrite !div_100. lra.
  - lra.
  - rewrite !toFixed2_nonneg by done.
    assert (H := floor_mono (x * 100 + (1 # 2)) (y * 100 + (1 # 2))).
    rewrite !div_100. lra.
Qed.

(** ** References into [sellerStats] *)

Lemma sellerIndex_Some (sellerStats : list Stat.t) id ref :
  obj_get (make_sellerIndex sellerStats) id = Some ref ->
  exists l1 s l2,
    sellerStats = l1 ++ s :: l2 /\ Stat.id s = id /\ ref = length l1 /\
    Forall (fun s' => Stat.id s' <> id) l2.
Proof.
  unfold make_sellerIndex.
  apply (fromEntries_imap_Some Stat.id (fun i _ => i)).
Qed.

Lemma sellerIndex_bound (sellerStats : list Stat.t) id ref :
  obj_get (make_sellerIndex sellerStats) id = Some ref ->
  (ref < length sellerStats)%nat.
Proof.
  intros (l1 & s & l2 & -> & _ & -> & _)%sellerIndex_Some.
  rewrite length_app. simpl. lia.
Qed.

(** ** The loop and the numbers *)

Lemma inherited_proto : inherited "__proto__" = true.
Proof. reflexivity. Qed.

Section LoopFacts.
Variable calculateRevenue : RevenueFn.
Variable productIndex : obj Product.t.

Lemma sell_item_tally seller item :
  sell_item calculateRevenue productIndex seller item
  = if numeric_item productIndex item
    then Some (tally_item calculateRevenue productIndex seller item)
    else None.
Proof.
  unfold sell_item, numeric_item, tally_item, obj_read, note_quantity.
  destruct (obj_get productIndex (Item.sku item)) as [product |].
  - destruct (String.eqb (Item.sku item) "__proto__") eqn:E; simpl.
    + apply String.eqb_eq in E. by rewrite E, inherited_proto.
    + by destruct (inherited (Item.sku item)).
  - by destruct (inherited (Item.sku item)).
Qed.

Lemma sell_items_None items :
  fold_left
    (fun acc item => acc ≫= fun s => sell_item calculateRevenue productIndex s item)
    items None
  = None.
Proof. by induction items. Qed.

Lemma sell_items_tally items seller :
  sell_items calculateRevenue productIndex items seller
  = if forallb (numeric_item productIndex) items
    then Some (fold_left (tally_item calculateRevenue productIndex) items seller)
    else None.
Proof.
  unfold sell_items. revert seller.
  induction items as [| item items IH]; intros seller; [done |].
  cbn [fold_left forallb mbind option_bind]. rewrite sell_item_tally.
  destruct (numeric_item productIndex item); simpl.
  - apply IH.
  - apply sell_items_None.
Qed.

Variable sellerIndex : obj nat.

Lemma fold_process_Thrown records message :
  fold_left (process_record calculateRevenue sellerIndex productIndex)
    records (Thrown message)
  = Thrown message.
Proof. by induction records. Qed.

Lemma fold_process_NaNs records :
  fold_left (process_record calculateRevenue sellerIndex productIndex) records NaNs
  = if existsb (throws_at sellerIndex productIndex) records
    then Thrown TypeError
    else NaNs.
Proof.
  induction records as [| r records IH]; [done |].
  cbn [fold_left existsb process_record]. unfold throws_at at 1.
  destruct (obj_read sellerIndex (Purchase.seller_id r)) as [ref | |]; simpl;
    try apply IH.
  destruct (existsb (resolves productIndex) (Purchase.items r)); simpl.
  - apply fold_process_Thrown.
  - apply IH.
Qed.

(** The loop is decided by its records one by one: the first that throws
    ends it, one that poisons leaves [NaN], and otherwise the array is the
    one the total steps give. *)
Lemma fold_process_Numbers records sellerStats :
  (forall id ref,
     obj_get sellerIndex id = Some ref -> (ref < length sellerStats)%nat) ->
  fold_left (process_record calculateRevenue sellerIndex productIndex)
    records (Numbers sellerStats)
  = if existsb (throws_at sellerIndex productIndex) records
    then Thrown TypeError
    else if existsb (poisons sellerIndex productIndex) records
         then NaNs
         else Numbers
                (fold_left (tally calculateRevenue sellerIndex productIndex)
                   records sellerStats).
Proof.
  revert sellerStats.
  induction records as [| r records IH]; intros sellerStats Hidx; [done |].
  cbn [fold_left existsb process_record].
  unfold throws_at at 1, poisons at 1, tally at 2, obj_read.
  destruct (obj_get sellerIndex (Purchase.seller_id r)) as [ref |] eqn:E.
  - destruct (lookup_lt_is_Some_2 sellerStats ref) as [seller Hseller];
      [by eapply Hidx |].
    rewrite Hseller, sell_items_tally.
    assert (Hset : <[ref :=
                       fold_left (tally_item calculateRevenue productIndex)
                         (Purchase.items r) (count_sale r seller)]> sellerStats
                   = alter (tally_record calculateRevenue productIndex r) ref
                       sellerStats).
    { apply list_eq. intros j. rewrite list_lookup_alter.
      destruct (decide (ref = j)) as [<- |].
      - rewrite list_lookup_insert_eq by (by eapply lookup_lt_Some).
        by rewrite Hseller.
      - by rewrite list_lookup_insert_ne. }
    destruct (forallb (numeric_item productIndex) (Purchase.items r));
      cbn [negb orb].
    + rewrite Hset.
      apply IH. intros ??. rewrite length_alter. apply Hidx.
    + rewrite fold_process_NaNs.
      by destruct (existsb (throws_at sellerIndex productIndex) records).
  - destruct (inherited (Purchase.seller_id r)); simpl; [| by apply IH].
    destruct (existsb (resolves productIndex) (Purchase.items r)); simpl.
    + apply fold_process_Thrown.
    + by apply IH.
Qed.

End LoopFacts.

Lemma run_loop_spec calculateRevenue sellers products records :
  let sellerIndex := make_sellerIndex (map init_stat sellers) in
  let productIndex := make_productIndex products in
  run_loop calculateRevenue sellers products records
  = if existsb (throws_at sellerIndex productIndex) records
    then Thrown TypeError
    else if existsb (poisons sellerIndex productIndex) records
         then NaNs
         else Numbers (aggregate calculateRevenue sellers products records).
Proof.
  intros sellerIndex productIndex. unfold run_loop, aggregate. cbv zeta.
  apply fold_process_Numbers. apply sellerIndex_bound.
Qed.

Lemma run_loop_Numbers calculateRevenue sellers products records sellerStats :
  run_loop calculateRevenue sellers products records = Numbers sellerStats ->
  sellerStats = aggregate calculateRevenue sellers products records.
Proof.
  rewrite run_loop_spec. repeat case_match; try done. by intros [= <-].
Qed.

Lemma business_logic_Return calculateRevenue calculateBonus sellers products records out :
  business_logic calculateRevenue calculateBonus sellers products records
  = Return out ->
  out = report calculateRevenue calculateBonus sellers products records.
Proof.
  unfold business_logic, report.
  destruct (run_loop _ _ _ _) as [sellerStats | |] eqn:E; try done.
  apply run_loop_Numbers in E as ->. by intros [= <-].
Qed.

(** ** From the loop to the returned array *)

Lemma call_Return calculateRevenue calculateBonus sellers products records out :
  call calculateRevenue calculateBonus sellers products records = Return out ->
  out = report calculateRevenue calculateBonus sellers products records /\
  sellers <> [] /\ products <> [] /\ records <> [].
Proof.
  unfold call. simpl. destruct sellers, products, records; simpl; try done.
  intros ->%business_logic_Return. done.
Qed.

Lemma call_business_logic calculateRevenue calculateBonus sellers products records :
  sellers <> [] -> products <> [] -> records <> [] ->
  call calculateRevenue calculateBonus sellers products records
  = business_logic calculateRevenue calculateBonus sellers products records.
Proof. unfold call. by destruct sellers, products, records. Qed.

(** A call returns its array of numbers only when the loop has ended
    within the numbers, with the array [aggregate] gives. *)
Lemma call_Return_loop calculateRevenue calculateBonus sellers products records out :
  call calculateRevenue calculateBonus sellers products records = Return out ->
  run_loop calculateRevenue sellers products records
  = Numbers (aggregate calculateRevenue sellers products records).
Proof.
  intros Hcall. pose proof Hcall as (_ & Hs & Hp & Hr)%call_Return.
  rewrite call_business_logic in Hcall by done. unfold business_logic in Hcall.
  destruct (run_loop _ _ _ _) as [sellerStats | |] eqn:E; try done.
  by apply run_loop_Numbers in E as ->.
Qed.

Section ReportFacts.
Variable calculateRevenue : RevenueFn.
Variable calculateBonus : BonusFn.
Variables (sellers : list Seller.t) (products : list Product.t).
Variable records : list Purchase.t.

Lemma aggregate_imap :
  aggregate calculateRevenue sellers products records
  = imap (final_stat calculateRevenue sellers products records) sellers.
Proof.
  apply list_eq. intros j.
  by rewrite aggregate_lookup, list_lookup_imap.
Qed.

(** A field of the report that depends on the seller's record alone can be
    read off the sorted records. *)
Lemma report_fields {B} (h : Report.t -> B) (g : Stat.t -> B) :
  (forall s b,
     h (project (mkRanked s b (top_products_of (Stat.products_sold s)))) = g s) ->
  map h (report calculateRevenue calculateBonus sellers products records)
  = map g (sort_by_profit (aggregate calculateRevenue sellers products records)).
Proof.
  intros Hhg. unfold report, rank.
  rewrite <- list_fmap_compose, fmap_imap.
  rewrite <- imap_const. apply imap_ext.
  intros i s _. simpl. apply Hhg.
Qed.

Lemma sort_by_profit_Permutation (l : list Stat.t) : sort_by_profit l ≡ₚ l.
Proof. apply insertion_sort_Permutation. Qed.

(** The same, up to the order of the array. *)
Lemma report_fields_Permutation {B} (h : Report.t -> B) (g : Stat.t -> B) :
  (forall s b,
     h (project (mkRanked s b (top_products_of (Stat.products_sold s)))) = g s) ->
  map h (report calculateRevenue calculateBonus sellers products records)
  ≡ₚ imap (fun j seller =>
             g (final_stat calculateRevenue sellers products records j seller))
       sellers.
Proof.
  intros Hhg. rewrite (report_fields h g Hhg).
  rewrite sort_by_profit_Permutation, aggregate_imap.
  by rewrite fmap_imap.
Qed.

End ReportFacts.

(** ** Which seller a purchase record goes to *)

Lemma sellerIndex_is_Some (sellers : list Seller.t) id :
  is_Some (obj_get (make_sellerIndex (map init_stat sellers)) id) <->
  id ∈ map Seller.id sellers.
Proof.
  rewrite <- not_eq_None_Some. unfold make_sellerIndex.
  rewrite (fromEntries_imap_None Stat.id (fun i _ => i)).
  rewrite Forall_fmap, <- Forall_fmap with (f := Seller.id) (P := fun i => i <> id).
  rewrite Forall_forall. split.
  - intros Hn. destruct (decide (id ∈ map Seller.id sellers)) as [| Hout]; [done |].
    exfalso. apply Hn. intros i Hi ->. done.
  - intros Hin Hall. by apply (Hall id).
Qed.

(** ** Counting sales *)

Lemma sum_sales_alter (f : Stat.t -> Stat.t) ref (sellerStats : list Stat.t) :
  (forall s, Stat.sales_count (f s) = (Stat.sales_count s + 1)%nat) ->
  (ref < length sellerStats)%nat ->
  sum_list (map Stat.sales_count (alter f ref sellerStats))
  = (sum_list (map Stat.sales_count sellerStats) + 1)%nat.
Proof.
  intros Hf. revert ref.
  induction sellerStats as [| s l IH]; intros [| ref] Hlt; simpl in Hlt; try lia.
  - simpl. rewrite Hf. lia.
  - specialize (IH ref ltac:(lia)). unfold alter in IH. simpl. lia.
Qed.

Lemma sum_sales_fold calculateRevenue sellerIndex productIndex records sellerStats :
  (forall id ref, obj_get sellerIndex id = Some ref -> (ref < length sellerStats)%nat) ->
  sum_list (map Stat.sales_count
              (fold_left (tally calculateRevenue sellerIndex productIndex)
                 records sellerStats))
  = (sum_list (map Stat.sales_count sellerStats)
     + length (filter (fun r => is_Some (obj_get sellerIndex (Purchase.seller_id r)))
                 records))%nat.
Proof.
  revert sellerStats.
  induction records as [| r records IH]; intros sellerStats Hidx; simpl.
  - lia.
  - rewrite IH by (intros ??; rewrite tally_length; apply Hidx).
    unfold tally.
    destruct (obj_get sellerIndex (Purchase.seller_id r)) as [ref |] eqn:E.
    + rewrite filter_cons_True by (by rewrite E).
      rewrite sum_sales_alter; [simpl; lia | | by eapply Hidx].
      intros s. apply tally_record_fixed.
    + rewrite filter_cons_False; [lia |].
      rewrite E. by intros [? ?].
Qed.

(** C9. On a call that returns, each report carries the number of purchase
    records the seller index sends to that seller, one per record whatever
    the number of its items: the reports, read as (seller id, sales count),
    are the input sellers with their counts, in some order.  Hence the
    sales counts of the output add up to the number of purchase records
    whose [seller_id] is the id of an input seller. *)
Theorem sales_count_conservation
    calculateRevenue calculateBonus sellers products records out :
  call calculateRevenue calculateBonus sellers products records = Return out ->
  let sellerIndex := make_sellerIndex (map init_stat sellers) in
  map (fun r => (Report.seller_id r, Report.sales_count r)) out
  ≡ₚ imap (fun j seller =>
             (Seller.id seller,
              length (filter (fun r => obj_get sellerIndex (Purchase.seller_id r) = Some j)
                        records)))
       sellers /\
  sum_list (map Report.sales_count out)
  = length (filter (fun r => Purchase.seller_id r ∈ map Seller.id sellers) records).
Proof.
  intros (-> & _)%call_Return sellerIndex. split.
  - rewrite (report_fields_Permutation _ _ _ _ _ _
               (fun s => (Stat.id s, Stat.sales_count s))) by done.
    apply reflexive_eq, imap_ext. intros j seller _. simpl.
    subst sellerIndex. unfold final_stat, records_of.
    by destruct (tally_records_fixed calculateRevenue (make_productIndex products)
                   (filter (fun r =>
                              obj_get (make_sellerIndex (map init_stat sellers))
                                (Purchase.seller_id r) = Some j)
                      records)
                   (init_stat seller)) as (-> & _ & _ & ->).
  - rewrite (report_fields _ _ _ _ _ _ Stat.sales_count) by done.
    rewrite sort_by_profit_Permutation. unfold aggregate.
    rewrite sum_sales_fold by apply sellerIndex_bound.
    assert (Hzero : sum_list (map Stat.sales_count (map init_stat sellers)) = 0%nat).
    { induction sellers as [| ? ? IH]; simpl; [done |]. by rewrite IH. }
    rewrite Hzero. simpl. f_equal.
    apply list_filter_iff. intros r. apply sellerIndex_is_Some.
Qed.

Lemma sales_count_conservation_witness :
  sum_list (map Report.sales_count
              (report calculateSimpleRevenue calculateBonusByProfit
                 demo_sellers demo_products demo_records))
  = 2%nat.
Proof.
  apply (sales_count_conservation calculateSimpleRevenue calculateBonusByProfit
           demo_sellers demo_products demo_records).
  reflexivity.
Defined.

(** ** Revenue and profit *)

Section Totals.
Variable calculateRevenue : RevenueFn.
Variable productIndex : obj Product.t.

Lemma tally_item_profit seller item :
  Stat.profit (tally_item calculateRevenue productIndex seller item)
  = add_item_profit calculateRevenue productIndex (Stat.profit seller) item.
Proof.
  unfold tally_item, add_item_profit. by destruct (obj_get _ _).
Qed.

Lemma tally_items_profit items seller :
  Stat.profit (fold_left (tally_item calculateRevenue productIndex) items seller)
  = fold_left (add_item_profit calculateRevenue productIndex) items
      (Stat.profit seller).
Proof.
  revert seller. induction items as [| item items IH]; intros seller; simpl.
  - done.
  - by rewrite IH, tally_item_profit.
Qed.

Lemma tally_records_profit records seller :
  Stat.profit
    (fold_left (fun s r => tally_record calculateRevenue productIndex r s)
       records seller)
  = fold_left
      (fun acc r =>
         fold_left (add_item_profit calculateRevenue productIndex)
           (Purchase.items r) acc)
      records (Stat.profit seller).
Proof.
  revert seller. induction records as [| r records IH]; intros seller; simpl.
  - done.
  - rewrite IH. unfold tally_record. by rewrite tally_items_profit.
Qed.

End Totals.

Lemma final_stat_fields calculateRevenue sellers products records j seller :
  let s := final_stat calculateRevenue sellers products records j seller in
  Stat.id s = Seller.id seller /\
  Stat.name s = (Seller.first_name seller ++ " " ++ Seller.last_name seller)%string /\
  Stat.revenue s = sum_amounts (records_of sellers j records) /\
  Stat.profit s
  = sum_profits calculateRevenue (make_productIndex products)
      (records_of sellers j records) /\
  Stat.sales_count s = length (records_of sellers j records).
Proof.
  unfold final_stat.
  set (rs := records_of sellers j records).
  destruct (tally_records_fixed calculateRevenue (make_productIndex products) rs
              (init_stat seller)) as (-> & -> & -> & ->).
  by rewrite tally_records_profit.
Qed.

(** C8. On a call that returns, the revenue of each report is the rounded
    sum of the [total_amount] fields of exactly the purchase records that
    the seller index sends to that seller.  The reports, read as
    (seller id, revenue), are the input sellers with these sums, in some
    order; before rounding, the record at an input position holds the sum
    itself; and the revenue strategy takes no part in it: any other
    strategy leaves the same revenues. *)
Theorem revenue_is_sum_of_total_amounts
    calculateRevenue calculateBonus sellers products records out :
  call calculateRevenue calculateBonus sellers products records = Return out ->
  map (fun r => (Report.seller_id r, Report.revenue r)) out
  ≡ₚ imap (fun j seller =>
             (Seller.id seller, toFixed2 (sum_amounts (records_of sellers j records))))
       sellers /\
  (forall j s,
     aggregate calculateRevenue sellers products records !! j = Some s ->
     Stat.revenue s = sum_amounts (records_of sellers j records)) /\
  (forall calculateRevenue' : RevenueFn,
     map Stat.revenue (aggregate calculateRevenue' sellers products records)
     = map Stat.revenue (aggregate calculateRevenue sellers products records)).
Proof.
  intros (-> & _)%call_Return. split_and!.
  - rewrite (report_fields_Permutation _ _ _ _ _ _
               (fun s => (Stat.id s, toFixed2 (Stat.revenue s)))) by done.
    apply reflexive_eq, imap_ext. intros j seller _. simpl.
    by destruct (final_stat_fields calculateRevenue sellers products records j seller)
      as (-> & _ & -> & _).
  - intros j s. rewrite aggregate_imap, list_lookup_imap.
    destruct (sellers !! j) as [seller |]; [| done].
    intros [= <-]. apply final_stat_fields.
  - intros calculateRevenue'. rewrite !aggregate_imap.
    change (map Stat.revenue) with (fmap (M := list) Stat.revenue).
    rewrite !fmap_imap.
    apply imap_ext. intros j seller _. simpl.
    destruct (final_stat_fields calculateRevenue sellers products records j seller)
      as (_ & _ & -> & _).
    by destruct (final_stat_fields calculateRevenue' sellers products records j seller)
      as (_ & _ & -> & _).
Qed.

Lemma revenue_is_sum_of_total_amounts_witness :
  map (fun r => (Report.seller_id r, Report.revenue r))
    (report calculateSimpleRevenue calculateBonusByProfit
       demo_sellers demo_products demo_records)
  ≡ₚ imap (fun j seller =>
             (Seller.id seller,
              toFixed2 (sum_amounts (records_of demo_sellers j demo_records))))
       demo_sellers.
Proof.
  exact (proj1 (revenue_is_sum_of_total_amounts calculateSimpleRevenue
                  calculateBonusByProfit demo_sellers demo_products demo_records _
                  eq_refl)).
Defined.

(** C3. For every item whose sku reads a product of the index, the loop
    adds to the running profit of the record's seller the strategy's value
    for (item, product) less [purchase_price * quantity], and nothing else
    is done with that value; an item whose sku reads [undefined] leaves the
    seller's record as it is.  On a call that returns, the loop has ended
    within the numbers, the profit a seller's record ends with is the sum
    of these differences over the items of the purchase records sent to the
    seller, and the report carries it rounded.  The default strategy
    returns [sale_price * quantity * (1 - discount / 100)]. *)
Theorem profit_is_revenue_minus_cost
    calculateRevenue calculateBonus sellers products records out :
  call calculateRevenue calculateBonus sellers products records = Return out ->
  let productIndex := make_productIndex products in
  (forall seller item,
     match obj_read productIndex (Item.sku item) with
     | Own product =>
         forall seller',
           sell_item calculateRevenue productIndex seller item = Some seller' ->
           Stat.profit seller'
           = Stat.profit seller
             + (calculateRevenue item product
                - Product.purchase_price product * Item.quantity item)
     | Inherited => sell_item calculateRevenue productIndex seller item = None
     | Undefined => sell_item calculateRevenue productIndex seller item = Some seller
     end) /\
  run_loop calculateRevenue sellers products records
  = Numbers (aggregate calculateRevenue sellers products records) /\
  (forall j s,
     aggregate calculateRevenue sellers products records !! j = Some s ->
     Stat.profit s
     = sum_profits calculateRevenue productIndex (records_of sellers j records)) /\
  map (fun r => (Report.seller_id r, Report.profit r)) out
  ≡ₚ imap (fun j seller =>
             (Seller.id seller,
              toFixed2 (sum_profits calculateRevenue productIndex
                          (records_of sellers j records))))
       sellers /\
  (forall item product,
     calculateSimpleRevenue item product
     = Item.sale_price item * Item.quantity item * (1 - Item.discount item / 100)).
Proof.
  intros Hcall productIndex.
  pose proof (call_Return_loop _ _ _ _ _ _ Hcall) as Hloop.
  apply call_Return in Hcall as (-> & _). split_and!.
  - intros seller item. unfold sell_item.
    destruct (obj_read productIndex (Item.sku item)) as [product | |];
      [| done | done].
    intros seller'. destruct (note_quantity _ _ _); [| done].
    by intros [= <-].
  - exact Hloop.
  - intros j s. rewrite aggregate_imap, list_lookup_imap.
    destruct (sellers !! j) as [seller |]; [| done].
    intros [= <-]. apply final_stat_fields.
  - rewrite (report_fields_Permutation _ _ _ _ _ _
               (fun s => (Stat.id s, toFixed2 (Stat.profit s)))) by done.
    apply reflexive_eq, imap_ext. intros j seller _. simpl.
    by destruct (final_stat_fields calculateRevenue sellers products records j seller)
      as (-> & _ & _ & -> & _).
  - done.
Qed.

Lemma profit_is_revenue_minus_cost_witness :
  run_loop calculateSimpleRevenue demo_sellers demo_products demo_records
  = Numbers (aggregate calculateSimpleRevenue demo_sellers demo_products
               demo_records) /\
  map (fun r => (Report.seller_id r, Report.profit r))
    (report calculateSimpleRevenue calculateBonusByProfit
       demo_sellers demo_products demo_records)
  ≡ₚ imap (fun j seller =>
             (Seller.id seller,
              toFixed2 (sum_profits calculateSimpleRevenue
                          (make_productIndex demo_products)
                          (records_of demo_sellers j demo_records))))
       demo_sellers.
Proof.
  pose proof (profit_is_revenue_minus_cost calculateSimpleRevenue
                calculateBonusByProfit demo_sellers demo_products
                demo_records _ eq_refl) as (_ & Hloop & _ & Hreports & _).
  exact (conj Hloop Hreports).
Defined.

(** ** Validation *)

Lemma throws_at_plain sellers (productIndex : obj Product.t) (r : Purchase.t) :
  plain_seller_id sellers r ->
  throws_at (make_sellerIndex (map init_stat sellers)) productIndex r = false.
Proof.
  intros Hr. unfold throws_at, obj_read.
  destruct (obj_get _ (Purchase.seller_id r)) as [ref |] eqn:E; [done |].
  destruct Hr as [Hin%sellerIndex_is_Some | ->]; [| done].
  rewrite E in Hin. by destruct Hin.
Qed.

Lemma numeric_item_plain (productIndex : obj Product.t) item :
  inherited (Item.sku item) = false -> numeric_item productIndex item = true.
Proof.
  intros Hitem. unfold numeric_item, obj_read. rewrite Hitem.
  destruct (obj_get _ _); [| done]. apply orb_true_r.
Qed.

Lemma poisons_plain sellerIndex (productIndex : obj Product.t) (r : Purchase.t) :
  plain_skus r -> poisons sellerIndex productIndex r = false.
Proof.
  intros Hr. unfold poisons. destruct (obj_read _ _); try done.
  apply negb_false_iff, forallb_forall. intros item Hitem%list_elem_of_In.
  apply numeric_item_plain. unfold plain_skus in Hr.
  rewrite Forall_forall in Hr. by apply Hr.
Qed.

Lemma existsb_false {A} (f : A -> bool) (l : list A) :
  Forall (fun x => f x = false) l -> existsb f l = false.
Proof. induction 1 as [| x l Hx _ IH]; [done |]. simpl. by rewrite Hx. Qed.

(** On arrays that pass the checks the call is decided by the loop. *)
Lemma call_spec calculateRevenue calculateBonus sellers products records :
  sellers <> [] -> products <> [] -> records <> [] ->
  call calculateRevenue calculateBonus sellers products records
  = if existsb (throws_at (make_sellerIndex (map init_stat sellers))
                  (make_productIndex products)) records
    then Throw TypeError
    else if existsb (poisons (make_sellerIndex (map init_stat sellers))
                       (make_productIndex products)) records
         then ReturnNaN
         else Return (report calculateRevenue calculateBonus sellers products
                        records).
Proof.
  intros Hs Hp Hr. rewrite call_business_logic by done.
  unfold business_logic, report. rewrite run_loop_spec. cbv zeta.
  destruct (existsb (throws_at _ _) records); [done |].
  by destruct (existsb (poisons _ _) records).
Qed.




(** ** The projection *)

(** C7. On a call that returns, each report is built from the ranked seller
    at the same position: its revenue, profit and bonus are the seller's
    accumulated values rounded to two decimals, a tie going away from zero
    (numbers, as the fields' type says), and its sales count and top
    products are the seller's, unchanged.  A third of a hundred becomes
    33.33. *)
Theorem report_rounds_to_two_decimals
    calculateRevenue calculateBonus sellers products records out :
  call calculateRevenue calculateBonus sellers products records = Return out ->
  Forall2
    (fun seller r =>
       rounds_half_away (Stat.revenue (stat seller)) (Report.revenue r) /\
       rounds_half_away (Stat.profit (stat seller)) (Report.profit r) /\
       rounds_half_away (bonus seller) (Report.bonus r) /\
       Report.sales_count r = Stat.sales_count (stat seller) /\
       Report.top_products r = top_products seller)
    (rank calculateBonus
       (sort_by_profit (aggregate calculateRevenue sellers products records)))
    out /\
  toFixed2 (100 # 3) == 33.33.
Proof.
  intros (-> & _)%call_Return. split; [| reflexivity].
  unfold report. apply Forall2_fmap_r, Forall_Forall2_diag, Forall_forall.
  intros seller _. simpl. split_and!; try done; apply toFixed2_rounds.
Qed.

Lemma report_rounds_to_two_decimals_witness :
  Forall2
    (fun seller r =>
       rounds_half_away (Stat.revenue (stat seller)) (Report.revenue r) /\
       rounds_half_away (Stat.profit (stat seller)) (Report.profit r) /\
       rounds_half_away (bonus seller) (Report.bonus r) /\
       Report.sales_count r = Stat.sales_count (stat seller) /\
       Report.top_products r = top_products seller)
    (rank calculateBonusByProfit
       (sort_by_profit
          (aggregate calculateSimpleRevenue demo_sellers demo_products demo_records)))
    (report calculateSimpleRevenue calculateBonusByProfit
       demo_sellers demo_products demo_records).
Proof.
  exact (proj1 (report_rounds_to_two_decimals calculateSimpleRevenue
                  calculateBonusByProfit demo_sellers demo_products demo_records _
                  eq_refl)).
Defined.

(** ** Ranking *)

Section Descending.
Context {A : Type}.
Variable key : A -> Q.

Lemma Array_sort_desc_Sorted (l : list A) :
  Sorted (fun a b => key b <= key a) (Array_sort (fun a b => key b - key a) l).
Proof.
  apply insertion_sort_Sorted.
  - intros x y Hxy. apply Qle_bool_iff in Hxy. lra.
  - intros x y Hxy.
    destruct (Qlt_le_dec 0 (key y - key x)) as [Hlt | Hle].
    + lra.
    + apply Qle_bool_iff in Hle. congruence.
Qed.

Lemma Array_sort_desc_stable (q : Q) (l : list A) :
  filter (fun a => key a == q) (Array_sort (fun a b => key b - key a) l)
  = filter (fun a => key a == q) l.
Proof.
  apply (insertion_sort_stable _ (fun a => key a == q)).
  intros x y Hx Hy. apply Qle_bool_iff. lra.
Qed.

End Descending.

Lemma sort_by_profit_Sorted (l : list Stat.t) :
  Sorted (fun a b => Stat.profit b <= Stat.profit a) (sort_by_profit l).
Proof. apply (Array_sort_desc_Sorted Stat.profit). Qed.

Lemma sort_by_profit_stable (p : Q) (l : list Stat.t) :
  filter (fun s => Stat.profit s == p) (sort_by_profit l)
  = filter (fun s => Stat.profit s == p) l.
Proof. apply (Array_sort_desc_stable Stat.profit). Qed.

(** C4. On a call that returns, the output has one report per input seller
    (as many reports as sellers, and the same ids and names up to order);
    the reported profits never increase from one entry to the next; and the
    order is that of a stable sort on the accumulated profit: the ranked
    records are the accumulated ones, which stand in input order, rearranged
    so that, for every value, the sellers whose accumulated profit has that
    value keep the order they had. *)
Theorem output_ranked_by_profit
    calculateRevenue calculateBonus sellers products records out :
  call calculateRevenue calculateBonus sellers products records = Return out ->
  let accumulated := aggregate calculateRevenue sellers products records in
  let ranked := sort_by_profit accumulated in
  length out = length sellers /\
  map (fun r => (Report.seller_id r, Report.name r)) out
  ≡ₚ map (fun s => (Seller.id s,
                    (Seller.first_name s ++ " " ++ Seller.last_name s)%string))
       sellers /\
  Sorted (fun x y => y <= x) (map Report.profit out) /\
  Forall2 (fun seller s =>
             Stat.id s = Seller.id seller /\
             Stat.name s
             = (Seller.first_name seller ++ " " ++ Seller.last_name seller)%string)
    sellers accumulated /\
  Forall2 (fun s r =>
             Report.seller_id r = Stat.id s /\ Report.name r = Stat.name s /\
             Report.profit r = toFixed2 (Stat.profit s))
    ranked out /\
  ranked ≡ₚ accumulated /\
  forall p,
    filter (fun s => Stat.profit s == p) ranked
    = filter (fun s => Stat.profit s == p) accumulated.
Proof.
  intros (-> & _)%call_Return accumulated ranked. split_and!.
  - unfold report, rank.
    rewrite length_map, length_imap.
    unfold sort_by_profit, Array_sort. rewrite insertion_sort_length.
    apply aggregate_length.
  - rewrite (report_fields_Permutation _ _ _ _ _ _
               (fun s => (Stat.id s, Stat.name s))) by done.
    rewrite <- imap_const. apply reflexive_eq, imap_ext. intros j seller _. simpl.
    by destruct (final_stat_fields calculateRevenue sellers products records j seller)
      as (-> & -> & _).
  - rewrite (report_fields _ _ _ _ _ _ (fun s => toFixed2 (Stat.profit s))) by done.
    eapply Sorted_fmap; [| apply sort_by_profit_Sorted].
    intros x y Hxy. simpl. by apply toFixed2_mono.
  - subst accumulated. rewrite aggregate_imap.
    apply Forall2_same_length_lookup. split; [by rewrite length_imap |].
    intros j seller s Hseller. rewrite list_lookup_imap, Hseller.
    intros [= <-].
    by destruct (final_stat_fields calculateRevenue sellers products records j seller)
      as (-> & -> & _).
  - unfold report, rank. rewrite fmap_imap.
    apply Forall2_same_length_lookup. split; [by rewrite length_imap |].
    intros j s r Hs. rewrite list_lookup_imap. fold accumulated ranked.
    rewrite Hs. by intros [= <-].
  - apply sort_by_profit_Permutation.
  - intros p. apply sort_by_profit_stable.
Qed.

Lemma output_ranked_by_profit_witness :
  Sorted (fun x y => y <= x)
    (map Report.profit
       (report calculateSimpleRevenue calculateBonusByProfit
          demo_sellers demo_products demo_records)).
Proof.
  exact (proj1 (proj2 (proj2 (output_ranked_by_profit calculateSimpleRevenue
                                calculateBonusByProfit demo_sellers demo_products
                                demo_records _ eq_refl)))).
Defined.

(** ** Dangling references *)

Lemma productIndex_None (products : list Product.t) sku :
  obj_get (make_productIndex products) sku = None <->
  sku ∉ map Product.sku products.
Proof.
  unfold make_productIndex.
  change (map (fun p => (Product.sku p, p)) products)
    with ((fun p => (Product.sku p, p)) <$> products).
  rewrite <- imap_const.
  rewrite (fromEntries_imap_None Product.sku (fun _ p => p)).
  rewrite Forall_forall. split.
  - intros Hall (p & -> & Hp)%list_elem_of_fmap. by apply (Hall p).
  - intros Hout p Hp Hsku. apply Hout, list_elem_of_fmap. eauto.
Qed.

Lemma sellerIndex_None (sellers : list Seller.t) id :
  obj_get (make_sellerIndex (map init_stat sellers)) id = None <->
  id ∉ map Seller.id sellers.
Proof. by rewrite <- sellerIndex_is_Some, eq_None_not_Some. Qed.

(** C2, where the code departs from it.  The two tests [if (!seller)
    return] and [if (!product) return] skip a dangling reference whose name
    reads [undefined], and only such a one.  A purchase record whose
    [seller_id] is the id of no seller and names no member of
    [Object.prototype] leaves the loop where it stood, and an item whose
    sku is the sku of no product and names no such member leaves the
    seller's record as it was.  But when the id of no seller names a member
    of [Object.prototype], the read finds the member, and an item of a
    known product ends the call with a [TypeError]; and when the sku of no
    product names such a member, in a purchase record of a known seller,
    the read finds the member, the cost is [NaN], and a call that no
    [seller_id] ends returns an array with a [NaN] profit. *)
Theorem dangling_prototype_names_are_not_skipped
    calculateRevenue calculateBonus sellers products records :
  sellers <> [] -> products <> [] ->
  let sellerIndex := make_sellerIndex (map init_stat sellers) in
  let productIndex := make_productIndex products in
  (forall state r,
     Purchase.seller_id r ∉ map Seller.id sellers ->
     inherited (Purchase.seller_id r) = false ->
     process_record calculateRevenue sellerIndex productIndex state r = state) /\
  (forall seller item,
     Item.sku item ∉ map Product.sku products ->
     inherited (Item.sku item) = false ->
     sell_item calculateRevenue productIndex seller item = Some seller) /\
  (forall r item,
     r ∈ records -> item ∈ Purchase.items r ->
     Purchase.seller_id r ∉ map Seller.id sellers ->
     inherited (Purchase.seller_id r) = true ->
     Item.sku item ∈ map Product.sku products ->
     call calculateRevenue calculateBonus sellers products records
     = Throw TypeError) /\
  (forall r item,
     r ∈ records -> item ∈ Purchase.items r ->
     Forall (plain_seller_id sellers) records ->
     Purchase.seller_id r ∈ map Seller.id sellers ->
     Item.sku item ∉ map Product.sku products ->
     inherited (Item.sku item) = true ->
     call calculateRevenue calculateBonus sellers products records
     = ReturnNaN).
Proof.
  intros Hs Hp sellerIndex productIndex. split_and!.
  - intros state r Hout%sellerIndex_None Hplain.
    unfold process_record, obj_read. fold sellerIndex in Hout.
    rewrite Hout, Hplain. by destruct state.
  - intros seller item Hout%productIndex_None Hplain.
    unfold sell_item, obj_read. fold productIndex in Hout.
    by rewrite Hout, Hplain.
  - intros r item Hr Hitem Hout%sellerIndex_None Hname Hsku.
    rewrite call_spec by (done || by destruct records; [inversion Hr |]).
    replace (existsb (throws_at _ _) records) with true; [done |].
    symmetry. apply existsb_exists. exists r. split; [by apply list_elem_of_In |].
    unfold throws_at, obj_read. rewrite Hout, Hname.
    apply existsb_exists. exists item. split; [by apply list_elem_of_In |].
    unfold resolves, obj_read.
    destruct (obj_get (make_productIndex products) (Item.sku item)) eqn:E;
      [done |].
    by apply productIndex_None in E.
  - intros r item Hr Hitem Hids Hin%sellerIndex_is_Some Hout%productIndex_None Hname.
    rewrite call_spec by (done || by destruct records; [inversion Hr |]).
    rewrite (existsb_false (throws_at _ _)).
    2: { eapply Forall_impl; [exact Hids |]. intros r'. by apply throws_at_plain. }
    replace (existsb (poisons _ _) records) with true; [done |].
    symmetry. apply existsb_exists. exists r. split; [by apply list_elem_of_In |].
    unfold poisons, obj_read. destruct Hin as [ref ->].
    apply negb_true_iff.
    destruct (forallb _ (Purchase.items r)) eqn:E; [| done].
    rewrite forallb_forall in E. apply list_elem_of_In in Hitem.
    specialize (E item Hitem). unfold numeric_item, obj_read in E.
    by rewrite Hout, Hname in E.
Qed.

Lemma dangling_prototype_names_are_not_skipped_witness :
  call calculateSimpleRevenue calculateBonusByProfit demo_sellers demo_products
    (demo_records ++ [toString_record])
  = Throw TypeError /\
  call calculateSimpleRevenue calculateBonusByProfit demo_sellers demo_products
    (demo_records ++ [constructor_record])
  = ReturnNaN.
Proof.
  split.
  - apply (proj1 (proj2 (proj2
             (dangling_prototype_names_are_not_skipped calculateSimpleRevenue
                calculateBonusByProfit demo_sellers demo_products
                (demo_records ++ [toString_record]) ltac:(done) ltac:(done))))
             toString_record (Item.mk "SKU_001" 0 15 1)).
    + apply elem_of_app. right. left.
    + left.
    + refine (bool_decide_unpack _ _). exact I.
    + reflexivity.
    + refine (bool_decide_unpack _ _). exact I.
  - apply (proj2 (proj2 (proj2
             (dangling_prototype_names_are_not_skipped calculateSimpleRevenue
                calculateBonusByProfit demo_sellers demo_products
                (demo_records ++ [constructor_record]) ltac:(done) ltac:(done))))
             constructor_record (Item.mk "constructor" 0 1 1)).
    + apply elem_of_app. right. left.
    + right. left.
    + repeat (constructor; [by right |]). constructor.
    + refine (bool_decide_unpack _ _). exact I.
    + refine (bool_decide_unpack _ _). exact I.
    + reflexivity.
Defined.

(** ** Duplicate keys *)

(** An id is sent to position [j] exactly when the seller at [j] carries it
    and no later seller does. *)
Lemma sellerIndex_Some_iff (sellers : list Seller.t) id j :
  obj_get (make_sellerIndex (map init_stat sellers)) id = Some j <->
  exists seller,
    sellers !! j = Some seller /\ Seller.id seller = id /\
    forall k later,
      (j < k)%nat -> sellers !! k = Some later -> Seller.id later <> id.
Proof.
  split.
  - intros (l1 & s & l2 & Heq & Hid & -> & Hl2)%sellerIndex_Some.
    assert (Hj : map init_stat sellers !! length l1 = Some s)
      by (by rewrite Heq, list_lookup_middle).
    change (map init_stat sellers) with (init_stat <$> sellers) in Hj.
    apply list_lookup_fmap_Some in Hj as (seller & -> & Hseller).
    exists seller. split_and!; [done | exact Hid |].
    intros k later Hk Hlater.
    assert (Hk' : map init_stat sellers !! k = Some (init_stat later)).
    { change (map init_stat sellers) with (init_stat <$> sellers).
      by rewrite list_lookup_fmap, Hlater. }
    rewrite Heq, lookup_app_r, lookup_cons_ne_0 in Hk' by lia.
    apply list_elem_of_lookup_2 in Hk'.
    rewrite Forall_forall in Hl2. apply (Hl2 _ Hk').
  - intros (seller & Hseller & <- & Hlater).
    rewrite <- (take_drop_middle sellers j seller Hseller).
    rewrite map_app. simpl.
    unfold make_sellerIndex.
    rewrite (fromEntries_imap_last Stat.id (fun i _ => i)).
    + rewrite length_map, length_take. f_equal.
      apply lookup_lt_Some in Hseller. lia.
    + apply Forall_fmap, Forall_lookup. intros i later Hi. simpl.
      rewrite lookup_drop in Hi. apply (Hlater (S j + i)%nat later); [lia | done].
Qed.


Lemma filter_none {A} (P : A -> Prop) `{!forall x, Decision (P x)} (l : list A) :
  (forall x, x ∈ l -> ~ P x) -> filter P l = [].
Proof.
  induction l as [| x l IH]; intros Hl; [done |].
  rewrite filter_cons_False by (apply Hl; left).
  apply IH. intros y Hy. apply Hl. by right.
Qed.

(** ** The keys of [products_sold] *)

Lemma note_sku_elem (seen : list string) k : k ∈ seen -> note_sku seen k = seen.
Proof. intros Hk. unfold note_sku. by rewrite bool_decide_eq_true_2. Qed.

Lemma note_sku_new (seen : list string) k :
  k ∉ seen -> note_sku seen k = seen ++ [k].
Proof. intros Hk. unfold note_sku. by rewrite bool_decide_eq_false_2. Qed.

Lemma note_sku_NoDup (seen : list string) k : NoDup seen -> NoDup (note_sku seen k).
Proof.
  intros Hseen. destruct (decide (k ∈ seen)) as [Hk | Hk].
  - by rewrite note_sku_elem.
  - rewrite note_sku_new by done. apply NoDup_app. split_and!; [done | | ].
    + intros x Hx ->%list_elem_of_singleton. done.
    + apply NoDup_singleton.
Qed.

Lemma fold_note_sku_NoDup (skus seen : list string) :
  NoDup seen -> NoDup (fold_left note_sku skus seen).
Proof.
  revert seen. induction skus as [| k skus IH]; intros seen Hseen; simpl.
  - done.
  - by apply IH, note_sku_NoDup.
Qed.

Section KeysFacts.
Context {V : Type}.
Implicit Types (o : obj V) (k : string).

Lemma obj_get_None_keys o k : obj_get o k = None <-> k ∉ o.*1.
Proof.
  induction o as [| [k0 v0] o IH]; simpl.
  - split; [intros _; apply not_elem_of_nil | done].
  - rewrite not_elem_of_cons. destruct (String.eqb k0 k) eqn:E.
    + apply String.eqb_eq in E. split; [done | intros [Hne _]; congruence].
    + apply String.eqb_neq in E. rewrite IH. split; [| tauto].
      intros Hk. split; [congruence | done].
Qed.

Lemma obj_get_Some_keys o k v : obj_get o k = Some v -> k ∈ o.*1.
Proof.
  intros Hget. destruct (decide (k ∈ o.*1)) as [| Hout]; [done |].
  apply obj_get_None_keys in Hout. congruence.
Qed.

Lemma keys_obj_set o k v : (obj_set o k v).*1 = note_sku o.*1 k.
Proof.
  induction o as [| [k0 v0] o IH]; [done |].
  cbn [obj_set]. destruct (String.eqb k0 k) eqn:E; rewrite !fmap_cons; cbn [fst].
  - apply String.eqb_eq in E as ->.
    rewrite note_sku_elem; [done | left].
  - apply String.eqb_neq in E. rewrite IH.
    destruct (decide (k ∈ o.*1)) as [Hk | Hk].
    + rewrite !note_sku_elem; [done | by right | done].
    + rewrite !note_sku_new; [done | | done].
      rewrite not_elem_of_cons. split; [congruence | done].
Qed.

End KeysFacts.

Lemma keys_ensure_entry (sold : obj Q) k :
  (ensure_entry sold k).*1 = note_sku sold.*1 k.
Proof.
  unfold ensure_entry. destruct (obj_get sold k) as [q |] eqn:E.
  - destruct (Qeq_bool q 0); [apply keys_obj_set |].
    symmetry. by eapply note_sku_elem, obj_get_Some_keys.
  - apply keys_obj_set.
Qed.

Lemma keys_add_quantity (sold : obj Q) k quantity :
  (add_quantity sold k quantity).*1 = sold.*1.
Proof.
  unfold add_quantity. destruct (obj_get sold k) as [q |] eqn:E; [| done].
  rewrite keys_obj_set. by eapply note_sku_elem, obj_get_Some_keys.
Qed.

Section SoldFacts.
Variable calculateRevenue : RevenueFn.
Variable productIndex : obj Product.t.

Lemma keys_tally_items items seller :
  (Stat.products_sold
     (fold_left (tally_item calculateRevenue productIndex) items seller)).*1
  = fold_left note_sku
      (map Item.sku
         (filter (fun item =>
                    is_Some (obj_get productIndex (Item.sku item)) /\
                    inherited (Item.sku item) = false) items))
      (Stat.products_sold seller).*1.
Proof.
  revert seller. induction items as [| item items IH]; intros seller; simpl.
  - done.
  - rewrite IH. unfold tally_item.
    destruct (obj_get productIndex (Item.sku item)) as [product |] eqn:E.
    + destruct (inherited (Item.sku item)) eqn:Hi; cbn [Stat.products_sold].
      * rewrite filter_cons_False; [done |]. rewrite Hi. by intros [_ ?].
      * rewrite filter_cons_True by (by rewrite E, Hi). simpl.
        by rewrite keys_add_quantity, keys_ensure_entry.
    + rewrite filter_cons_False; [done |]. rewrite E. by intros [[? ?] _].
Qed.

Lemma keys_tally_records records seller :
  (Stat.products_sold
     (fold_left (fun s r => tally_record calculateRevenue productIndex r s)
        records seller)).*1
  = fold_left note_sku (sold_skus productIndex records)
      (Stat.products_sold seller).*1.
Proof.
  revert seller. induction records as [| r records IH]; intros seller; simpl.
  - done.
  - rewrite IH, fold_left_app. unfold tally_record.
    by rewrite keys_tally_items.
Qed.

End SoldFacts.

Lemma keys_final_stat calculateRevenue sellers products records j seller :
  (Stat.products_sold
     (final_stat calculateRevenue sellers products records j seller)).*1
  = first_seen (sold_skus (make_productIndex products) (records_of sellers j records)).
Proof. unfold final_stat. by rewrite keys_tally_records. Qed.

(** ** Top products *)



Lemma filter_all {A} (P : A -> Prop) `{!forall x, Decision (P x)} (l : list A) :
  (forall x, x ∈ l -> P x) -> filter P l = l.
Proof.
  induction l as [| x l IH]; intros Hl; [done |].
  rewrite filter_cons_True by (apply Hl; left).
  f_equal. apply IH. intros y Hy. apply Hl. by right.
Qed.

Lemma Object_entries_enumerates (sold : obj Q) : enumerates sold (Object_entries sold).
Proof.
  eexists. split_and!; [reflexivity | apply insertion_sort_Permutation |].
  apply insertion_sort_Sorted.
  - intros x y Hxy. by apply N.leb_le in Hxy.
  - intros x y Hxy. apply N.leb_gt in Hxy. lia.
Qed.

Lemma Object_entries_no_index (sold : obj Q) :
  Forall (fun k => is_array_index k = false) sold.*1 ->
  Object_entries sold = sold.
Proof.
  intros Hkeys. rewrite Forall_fmap, Forall_forall in Hkeys.
  unfold Object_entries.
  rewrite filter_none, filter_all; [done | done |].
  intros kv Hkv. specialize (Hkeys kv Hkv). simpl in Hkeys. congruence.
Qed.

Lemma Array_sort_by_quantity (pairs : list Top.t) :
  stably_sorted_by_quantity pairs
    (Array_sort (fun a b => Top.quantity b - Top.quantity a) pairs).
Proof.
  split_and!.
  - apply insertion_sort_Permutation.
  - apply (Array_sort_desc_Sorted Top.quantity).
  - intros q. apply (Array_sort_desc_stable Top.quantity).
Qed.

Lemma obj_get_elem_NoDup {V} (o : obj V) k v :
  NoDup o.*1 -> (k, v) ∈ o -> obj_get o k = Some v.
Proof.
  induction o as [| [k0 v0] o IH]; [by intros _ ?%elem_of_nil |].
  rewrite fmap_cons, NoDup_cons, elem_of_cons. cbn [fst obj_get].
  intros [Hk0 Ho] [[= -> ->] | Hin].
  - by rewrite String.eqb_refl.
  - destruct (String.eqb k0 k) eqn:E; [| by apply IH].
    apply String.eqb_eq in E as ->. exfalso. apply Hk0.
    apply list_elem_of_fmap. by exists (k, v).
Qed.

Lemma omap_keys_within (big o : obj Q) :
  (forall kv, kv ∈ o -> obj_get big kv.1 = Some kv.2) ->
  omap (fun k => (fun q => Top.mk k q) <$> obj_get big k) o.*1 = map to_pair o.
Proof.
  induction o as [| [k v] o IH]; intros Hbig; [done |].
  rewrite fmap_cons. cbn [omap list_omap fst map].
  pose proof (Hbig (k, v) ltac:(left)) as Hk. cbn [fst snd] in Hk.
  rewrite Hk. simpl. f_equal.
  apply IH. intros kv Hkv. apply Hbig. by right.
Qed.

Lemma omap_keys (o : obj Q) :
  NoDup o.*1 ->
  omap (fun k => (fun q => Top.mk k q) <$> obj_get o k) o.*1 = map to_pair o.
Proof.
  intros Hnd. apply omap_keys_within. intros [k v] Hkv.
  by apply obj_get_elem_NoDup.
Qed.

Lemma top_products_of_no_index (sold : obj Q) :
  NoDup sold.*1 ->
  Forall (fun k => is_array_index k = false) sold.*1 ->
  top_products_of sold = top_products_in_order sold sold.*1.
Proof.
  intros Hnd Hkeys. unfold top_products_of, top_products_in_order.
  by rewrite Object_entries_no_index, omap_keys.
Qed.

(** C5, as the code has it.  On a call that returns, the top products of
    each report are the seller's [products_sold] mapping turned into
    (sku, quantity) pairs, sorted by descending quantity and cut to the
    first ten; pairs of equal quantity keep the enumeration order of the
    mapping, which lists the skus that are array indexes first, by
    ascending value, and the other skus after them, in the order they were
    first met during aggregation.  When no sku a seller sold is an array
    index, the ties are in first-met order throughout.  The call returns
    only when the loop has ended within the numbers, and the skus of the
    mapping are then those of the items of the seller's purchase records
    whose sku is the sku of a product and names no member of
    [Object.prototype]. *)
Theorem top_products_follow_enumeration
    calculateRevenue calculateBonus sellers products records out :
  call calculateRevenue calculateBonus sellers products records = Return out ->
  Forall2
    (fun s r =>
       let sold := Stat.products_sold s in
       (exists entries sorted,
          enumerates sold entries /\
          stably_sorted_by_quantity (map to_pair entries) sorted /\
          Report.top_products r = take 10 sorted) /\
       (length (Report.top_products r) <= 10)%nat /\
       (Forall (fun k => is_array_index k = false) sold.*1 ->
        Report.top_products r = top_products_in_order sold sold.*1))
    (sort_by_profit (aggregate calculateRevenue sellers products records))
    out /\
  (forall j s,
     aggregate calculateRevenue sellers products records !! j = Some s ->
     (Stat.products_sold s).*1
     = first_seen (sold_skus (make_productIndex products)
                     (records_of sellers j records))) /\
  run_loop calculateRevenue sellers products records
  = Numbers (aggregate calculateRevenue sellers products records).
Proof.
  intros Hcall.
  pose proof (call_Return_loop _ _ _ _ _ _ Hcall) as Hloop.
  apply call_Return in Hcall as (-> & _).
  assert (Hkeys : forall j s,
            aggregate calculateRevenue sellers products records !! j = Some s ->
            (Stat.products_sold s).*1
            = first_seen (sold_skus (make_productIndex products)
                            (records_of sellers j records))).
  { intros j s. rewrite aggregate_imap, list_lookup_imap.
    destruct (sellers !! j) as [seller |]; [| done].
    intros [= <-]. apply keys_final_stat. }
  split; [| done].
  unfold report, rank. rewrite fmap_imap. clear Hloop.
  apply Forall2_same_length_lookup. split; [by rewrite length_imap |].
  intros i s r Hs. rewrite list_lookup_imap, Hs. intros [= <-]. simpl.
  split_and!.
  - exists (Object_entries (Stat.products_sold s)). eexists. split_and!.
    + apply Object_entries_enumerates.
    + apply Array_sort_by_quantity.
    + done.
  - unfold top_products_of. rewrite length_take. lia.
  - apply top_products_of_no_index.
    apply list_elem_of_lookup_2 in Hs.
    rewrite sort_by_profit_Permutation in Hs.
    apply list_elem_of_lookup_1 in Hs as [j Hj].
    rewrite (Hkeys j s Hj). by apply fold_note_sku_NoDup, NoDup_nil.
Qed.

Lemma top_products_follow_enumeration_witness :
  Forall2
    (fun s r =>
       let sold := Stat.products_sold s in
       (exists entries sorted,
          enumerates sold entries /\
          stably_sorted_by_quantity (map to_pair entries) sorted /\
          Report.top_products r = take 10 sorted) /\
       (length (Report.top_products r) <= 10)%nat /\
       (Forall (fun k => is_array_index k = false) sold.*1 ->
        Report.top_products r = top_products_in_order sold sold.*1))
    (sort_by_profit
       (aggregate calculateSimpleRevenue demo_sellers demo_products demo_records))
    (report calculateSimpleRevenue calculateBonusByProfit
       demo_sellers demo_products demo_records).
Proof.
  exact (proj1 (top_products_follow_enumeration calculateSimpleRevenue
                  calculateBonusByProfit demo_sellers demo_products demo_records _
                  eq_refl)).
Defined.

(** The claim C5 as worded fails on numeric skus: sku "2" is met before
    sku "1" and both are sold five times, so first-met order lists "2"
    first, while the report lists "1" first. *)
Lemma top_products_tie_order_counterexample :
  exists s r,
    aggregate calculateSimpleRevenue tie_sellers tie_products tie_records = [s] /\
    call calculateSimpleRevenue calculateBonusByProfit
      tie_sellers tie_products tie_records = Return [r] /\
    first_seen (sold_skus (make_productIndex tie_products)
                  (records_of tie_sellers 0 tie_records)) = ["2"; "1"]%string /\
    top_products_in_order (Stat.products_sold s) ["2"; "1"]%string
    = [Top.mk "2" 5; Top.mk "1" 5] /\
    Report.top_products r = [Top.mk "1" 5; Top.mk "2" 5] /\
    Report.top_products r
    <> top_products_in_order (Stat.products_sold s) ["2"; "1"]%string.
Proof. do 2 eexists. split_and!; [reflexivity .. | discriminate]. Qed.

(** ** A worked run *)

(** Two sellers, two products, three purchase records, one of them of an
    unknown seller and one item of an unknown sku: the first seller earns
    10 + 7 and takes 15% of it, the second earns 15 and takes 10%. *)
Example demo_report :
  call calculateSimpleRevenue calculateBonusByProfit
    demo_sellers demo_products demo_records
  = Return
      [ {| Report.seller_id := "seller_1";
           Report.name := "Alexey Petrov";
           Report.revenue := 100.00;
           Report.profit := 17.00;
           Report.sales_count := 1;
           Report.top_products := [ Top.mk "SKU_001" 2; Top.mk "SKU_002" 1 ];
           Report.bonus := 2.55 |};
        {| Report.seller_id := "seller_2";
           Report.name := "Mikhail Nikolaev";
           Report.revenue := 33.33;
           Report.profit := 15.00;
           Report.sales_count := 1;
           Report.top_products := [ Top.mk "SKU_002" 3 ];
           Report.bonus := 1.50 |} ].
Proof. reflexivity. Qed.

(** * Further properties of the strategies *)

(** X1. The default revenue strategy applies the discount as a percentage
    and clamps nothing.  For a non-negative price and quantity: a discount
    between 0 and 100 gives a revenue between 0 and [price * quantity]; no
    discount gives the full amount and a discount of 100 gives 0; a
    discount above 100 gives a revenue that is not positive, and a negative
    discount one that is not below the full amount. *)
Theorem calculateSimpleRevenue_bounds (purchase : Item.t) (product : Product.t) :
  0 <= Item.sale_price purchase -> 0 <= Item.quantity purchase ->
  let full := Item.sale_price purchase * Item.quantity purchase in
  let revenue := calculateSimpleRevenue purchase product in
  (0 <= Item.discount purchase /\ Item.discount purchase <= 100 ->
   0 <= revenue /\ revenue <= full) /\
  (Item.discount purchase == 0 -> revenue == full) /\
  (Item.discount purchase == 100 -> revenue == 0) /\
  (100 < Item.discount purchase -> revenue <= 0) /\
  (Item.discount purchase < 0 -> full <= revenue).
Proof.
  intros Hp Hq full revenue. subst full revenue. unfold calculateSimpleRevenue.
  destruct purchase as [sku d p q]. simpl in *.
  pose proof (div_100 d) as Hd.
  assert (Hpq : 0 <= p * q) by (by apply Qmult_le_0_compat).
  set (c := d / 100) in *.
  split_and!.
  - intros [Hd0 Hd1].
    assert (H1 : 0 <= p * q * c) by (apply Qmult_le_0_compat; lra).
    assert (H2 : 0 <= p * q * (1 - c)) by (apply Qmult_le_0_compat; lra).
    split; lra.
  - intros Hd0. assert (Hc : c == 0) by lra. rewrite Hc. ring.
  - intros Hd1. assert (Hc : c == 1) by lra. rewrite Hc. ring.
  - intros Hd1.
    assert (H1 : 0 <= p * q * (c - 1)) by (apply Qmult_le_0_compat; lra).
    lra.
  - intros Hd0.
    assert (H1 : 0 <= p * q * (- c)) by (apply Qmult_le_0_compat; lra).
    lra.
Qed.

Lemma calculateSimpleRevenue_bounds_witness :
  0 <= calculateSimpleRevenue (Item.mk "SKU_002" 10 30 1) (Product.mk "SKU_002" 20) /\
  calculateSimpleRevenue (Item.mk "SKU_002" 10 30 1) (Product.mk "SKU_002" 20)
  <= 30 * 1.
Proof.
  apply (calculateSimpleRevenue_bounds (Item.mk "SKU_002" 10 30 1)
           (Product.mk "SKU_002" 20)); simpl; lra.
Defined.

(** The share of a rank never grows down the ranking, and neither does the
    bonus when the profit does not grow either. *)
Lemma bonus_rank_mono (seller seller' : Stat.t) (n i j : Z) :
  0 <= Stat.profit seller' -> Stat.profit seller' <= Stat.profit seller ->
  (0 <= i)%Z -> (i <= j)%Z -> (j <= n - 1)%Z ->
  calculateBonusByProfit j n seller' <= calculateBonusByProfit i n seller.
Proof.
  intros Hp' Hp Hi Hij Hjn. unfold calculateBonusByProfit.
  destruct (Z.eqb_spec i 0), (Z.eqb_spec i 1), (Z.eqb_spec i 2),
    (Z.eqb_spec i (n - 1)), (Z.eqb_spec j 0), (Z.eqb_spec j 1),
    (Z.eqb_spec j 2), (Z.eqb_spec j (n - 1));
    simpl; try lia; lra.
Qed.

(** X2. With the default bonus strategy and a seller whose profit is not
    negative, the bonus lies between 0 and 15% of the profit, and within
    the ranks [0 .. n - 1] a better rank never earns less than a worse
    one. *)
Theorem calculateBonusByProfit_monotone (seller : Stat.t) (n i j : Z) :
  0 <= Stat.profit seller ->
  (0 <= calculateBonusByProfit i n seller /\
   calculateBonusByProfit i n seller <= Stat.profit seller * 0.15) /\
  ((0 <= i)%Z -> (i <= j)%Z -> (j <= n - 1)%Z ->
   calculateBonusByProfit j n seller <= calculateBonusByProfit i n seller).
Proof.
  intros Hp. split.
  - unfold calculateBonusByProfit.
    destruct (Z.eqb_spec i 0), (Z.eqb_spec i 1), (Z.eqb_spec i 2),
      (Z.eqb_spec i (n - 1)); simpl; split; lra.
  - intros Hi Hij Hjn. apply bonus_rank_mono; [done | lra | done ..].
Qed.

Lemma calculateBonusByProfit_monotone_witness :
  calculateBonusByProfit 4 5 (stat_of_profit 400)
  <= calculateBonusByProfit 2 5 (stat_of_profit 400).
Proof.
  apply (calculateBonusByProfit_monotone (stat_of_profit 400) 5 2 4);
    [simpl; lra | lia ..].
Defined.

(** X3. With the default bonus strategy a seller whose profit is not zero
    gets a bonus of zero on exactly one rank, the last one, and only when
    that rank is none of the first three: with one, two or three sellers
    nobody in the ranking is left without a share. *)
Theorem calculateBonusByProfit_zero_rank (seller : Stat.t) (n index : Z) :
  ~ Stat.profit seller == 0 ->
  (calculateBonusByProfit index n seller == 0 <->
   index = (n - 1)%Z /\ index <> 0%Z /\ index <> 1%Z /\ index <> 2%Z) /\
  ((n <= 3)%Z -> (0 <= index)%Z -> (index < n)%Z ->
   ~ calculateBonusByProfit index n seller == 0).
Proof.
  intros Hp.
  assert (Hiff : calculateBonusByProfit index n seller == 0 <->
                 index = (n - 1)%Z /\ index <> 0%Z /\ index <> 1%Z /\ index <> 2%Z).
  { unfold calculateBonusByProfit.
    destruct (Z.eqb_spec index 0), (Z.eqb_spec index 1), (Z.eqb_spec index 2),
      (Z.eqb_spec index (n - 1)); simpl;
      (split; [intros H0 | intros (? & ? & ? & ?)]);
      try done; try lia; try (exfalso; apply Hp; lra). }
  split; [done |].
  intros Hn Hi Hin (? & ? & ? & ?)%Hiff. lia.
Qed.

Lemma calculateBonusByProfit_zero_rank_witness :
  calculateBonusByProfit 4 5 (stat_of_profit 400) == 0 <->
  4%Z = (5 - 1)%Z /\ 4%Z <> 0%Z /\ 4%Z <> 1%Z /\ 4%Z <> 2%Z.
Proof.
  apply (calculateBonusByProfit_zero_rank (stat_of_profit 400) 5 4).
  simpl. lra.
Defined.

(** * Further properties of [analyzeSalesData] *)

(** ** Which error is thrown *)

(** X4. The three checks are made in a fixed order and each has its own
    message: a data set that is absent, or has a collection that is not a
    non-empty array, gives the data message whatever the options are;
    with good data, options that are absent or not an object give the
    options message; with good data and an options object, a strategy that
    is missing or not a function gives the strategies message. *)
Theorem validation_messages (data : option Dataset) (options : Options) :
  (~ well_formed_data data ->
   analyzeSalesData data options = Throw "Некорректные входные данные") /\
  (well_formed_data data ->
   options = OptionsAbsent \/ options = OptionsNotObject ->
   analyzeSalesData data options = Throw "Некорректные опции") /\
  (well_formed_data data ->
   forall r b,
     options = OptionsObject r b -> ~ (callable r /\ callable b) ->
     analyzeSalesData data options = Throw "Не переданы функции расчёта").
Proof.
  split_and!.
  - intros Hbad.
    destruct data as [[[| [| s ss]] [| [| p ps]] [| [| r rs]]] |]; try done.
    exfalso. apply Hbad.
    eexists. split_and!; [done | by do 2 eexists ..].
  - intros (d & -> & (s & ss & Hs) & (p & ps & Hp) & (r & rs & Hr)) Hopt.
    destruct d as [? ? ?]. simpl in *. subst.
    by destruct Hopt as [-> | ->].
  - intros (d & -> & (s & ss & Hs) & (p & ps & Hp) & (r & rs & Hr)) rev bon -> Hnot.
    destruct d as [? ? ?]. simpl in *. subst.
    destruct rev as [| | frev], bon as [| | fbon]; try done.
    exfalso. apply Hnot. split; by eexists.
Qed.

Lemma validation_messages_witness :
  analyzeSalesData None OptionsAbsent = Throw "Некорректные входные данные" /\
  analyzeSalesData
    (Some (mkDataset (IsArray demo_sellers) (IsArray demo_products)
             (IsArray demo_records)))
    (OptionsObject (Callable calculateSimpleRevenue) NotCallable)
  = Throw "Не переданы функции расчёта".
Proof.
  split.
  - apply validation_messages. by intros (d & [=] & _).
  - eapply validation_messages; [| reflexivity |].
    + eexists. split_and!; [reflexivity | by do 2 eexists ..].
    + intros [_ [f [=]]].
Defined.

(** ** Bonuses along the ranking *)

Lemma Sorted_lookup {A} (R : relation A) (l : list A) i x y :
  Sorted R l -> l !! i = Some x -> l !! S i = Some y -> R x y.
Proof.
  intros Hl. revert i. induction Hl as [| a l Hl IH Ha]; intros i; [done |].
  destruct i as [| i]; simpl.
  - intros [= ->] Hy. destruct Ha as [| b l Hab]; [done |].
    by injection Hy as ->.
  - apply IH.
Qed.

Lemma Sorted_from_lookup {A} (R : relation A) (l : list A) :
  (forall i x y, l !! i = Some x -> l !! S i = Some y -> R x y) -> Sorted R l.
Proof.
  induction l as [| a l IH]; intros Hadj; constructor.
  - apply IH. intros i x y. apply (Hadj (S i)).
  - destruct l as [| b l]; constructor. by apply (Hadj 0%nat).
Qed.

Lemma default_bonus_lookup calculateRevenue sellers products records i r :
  report calculateRevenue calculateBonusByProfit sellers products records !! i
  = Some r ->
  exists s,
    sort_by_profit (aggregate calculateRevenue sellers products records) !! i
    = Some s /\
    Report.bonus r
    = toFixed2 (calculateBonusByProfit (Z.of_nat i) (Z.of_nat (length sellers)) s).
Proof.
  unfold report, rank. rewrite fmap_imap, list_lookup_imap.
  destruct (sort_by_profit _ !! i) as [s |]; [| done].
  intros [= <-]. exists s. split; [done |]. simpl.
  unfold sort_by_profit, Array_sort.
  by rewrite insertion_sort_length, aggregate_length.
Qed.

(** X5. With the default bonus strategy, when no seller ends with a
    negative profit, the reported bonuses never increase from one entry of
    the output to the next. *)
Theorem default_bonuses_never_increase
    calculateRevenue sellers products records out :
  call calculateRevenue calculateBonusByProfit sellers products records
  = Return out ->
  Forall (fun s => 0 <= Stat.profit s)
    (aggregate calculateRevenue sellers products records) ->
  Sorted (fun x y => y <= x) (map Report.bonus out).
Proof.
  intros (-> & _)%call_Return Hpos.
  apply Sorted_from_lookup. intros i x y.
  change (map Report.bonus ?l) with (Report.bonus <$> l).
  rewrite !list_lookup_fmap.
  destruct (report _ _ _ _ _ !! i) as [r |] eqn:Hr; [| done].
  destruct (report _ _ _ _ _ !! S i) as [r' |] eqn:Hr'; [| done].
  intros [= <-] [= <-].
  apply default_bonus_lookup in Hr as (s & Hs & ->).
  apply default_bonus_lookup in Hr' as (s' & Hs' & ->).
  apply toFixed2_mono, bonus_rank_mono.
  - rewrite Forall_forall in Hpos. apply Hpos.
    rewrite <- sort_by_profit_Permutation. by eapply list_elem_of_lookup_2.
  - apply (Sorted_lookup _ _ i s s' (sort_by_profit_Sorted _) Hs Hs').
  - lia.
  - lia.
  - apply lookup_lt_Some in Hs'.
    unfold sort_by_profit, Array_sort in Hs'.
    rewrite insertion_sort_length, aggregate_length in Hs'. lia.
Qed.

Lemma default_bonuses_never_increase_witness :
  Sorted (fun x y => y <= x)
    (map Report.bonus
       (report calculateSimpleRevenue calculateBonusByProfit
          demo_sellers demo_products demo_records)).
Proof.
  apply (default_bonuses_never_increase calculateSimpleRevenue
           demo_sellers demo_products demo_records); [reflexivity |].
  set (accumulated := aggregate _ _ _ _). vm_compute in accumulated.
  subst accumulated. repeat constructor; simpl; lra.
Defined.

(** X6. With the default bonus strategy, the first report belongs to a
    seller whose accumulated profit no other seller exceeds, and its bonus
    is 15% of that profit, rounded; with four sellers or more, the bonus of
    the last report is zero. *)
Theorem default_bonus_first_and_last
    calculateRevenue sellers products records out :
  call calculateRevenue calculateBonusByProfit sellers products records
  = Return out ->
  (exists top r,
     sort_by_profit (aggregate calculateRevenue sellers products records) !! 0%nat
     = Some top /\
     out !! 0%nat = Some r /\
     Forall (fun s => Stat.profit s <= Stat.profit top)
       (aggregate calculateRevenue sellers products records) /\
     Report.seller_id r = Stat.id top /\
     Report.bonus r = toFixed2 (Stat.profit top * 0.15)) /\
  ((4 <= length sellers)%nat ->
   exists r, last out = Some r /\ Report.bonus r == 0).
Proof.
  intros (-> & Hne & _)%call_Return.
  set (agg := aggregate calculateRevenue sellers products records).
  assert (Hlen : length (sort_by_profit agg) = length sellers).
  { unfold sort_by_profit, Array_sort.
    rewrite insertion_sort_length. apply aggregate_length. }
  split.
  - destruct (sort_by_profit agg) as [| top rest] eqn:Hsorted.
    { destruct sellers; [done | discriminate Hlen]. }
    exists top. eexists. split_and!.
    + done.
    + unfold report, rank. fold agg. rewrite Hsorted. reflexivity.
    + pose proof (sort_by_profit_Sorted agg) as Hs. rewrite Hsorted in Hs.
      apply Sorted_StronglySorted in Hs; [| intros x y z ??; lra].
      apply StronglySorted_cons in Hs as [Hrest _].
      rewrite <- (sort_by_profit_Permutation agg), Hsorted.
      constructor; [lra | done].
    + done.
    + done.
  - intros Hfour.
    destruct (lookup_lt_is_Some_2 (sort_by_profit agg) (pred (length sellers)))
      as [s Hs]; [lia |].
    eexists. split.
    + rewrite last_lookup. unfold report, rank. fold agg.
      rewrite length_map, length_imap, Hlen.
      rewrite list_lookup_fmap, list_lookup_imap, Hs. reflexivity.
    + cbn [Report.bonus project bonus]. unfold calculateBonusByProfit.
      destruct (Z.eqb_spec (Z.of_nat (pred (length sellers))) 0),
        (Z.eqb_spec (Z.of_nat (pred (length sellers))) 1),
        (Z.eqb_spec (Z.of_nat (pred (length sellers))) 2),
        (Z.eqb_spec (Z.of_nat (pred (length sellers)))
           (Z.of_nat (length sellers) - 1)); simpl; try lia.
      reflexivity.
Qed.

Lemma default_bonus_first_and_last_witness :
  exists top r,
    sort_by_profit
      (aggregate calculateSimpleRevenue demo_sellers demo_products demo_records)
    !! 0%nat = Some top /\
    report calculateSimpleRevenue calculateBonusByProfit
      demo_sellers demo_products demo_records !! 0%nat = Some r /\
    Forall (fun s => Stat.profit s <= Stat.profit top)
      (aggregate calculateSimpleRevenue demo_sellers demo_products demo_records) /\
    Report.seller_id r = Stat.id top /\
    Report.bonus r = toFixed2 (Stat.profit top * 0.15).
Proof.
  exact (proj1 (default_bonus_first_and_last calculateSimpleRevenue
                  demo_sellers demo_products demo_records _ eq_refl)).
Defined.

(** ** A seller without sales *)

Lemma records_of_none (sellers : list Seller.t) records j seller :
  sellers !! j = Some seller ->
  (forall r, r ∈ records -> Purchase.seller_id r <> Seller.id seller) ->
  records_of sellers j records = [].
Proof.
  intros Hseller Hnone. unfold records_of. apply filter_none.
  intros r Hr (seller' & Hseller' & Hid & _)%sellerIndex_Some_iff.
  apply (Hnone r Hr). congruence.
Qed.

(** X7. A seller whose id no purchase record carries still gets a report:
    its record stays as it was initialised, and with the default bonus
    strategy the report has the seller's id and name, revenue, profit and
    bonus equal to zero, no sale and no top product, whatever its rank. *)
Theorem seller_without_sales
    calculateRevenue sellers products records out j seller :
  call calculateRevenue calculateBonusByProfit sellers products records
  = Return out ->
  sellers !! j = Some seller ->
  (forall r, r ∈ records -> Purchase.seller_id r <> Seller.id seller) ->
  aggregate calculateRevenue sellers products records !! j
  = Some (init_stat seller) /\
  exists r,
    r ∈ out /\
    Report.seller_id r = Seller.id seller /\
    Report.name r
    = (Seller.first_name seller ++ " " ++ Seller.last_name seller)%string /\
    Report.revenue r == 0 /\ Report.profit r == 0 /\ Report.bonus r == 0 /\
    Report.sales_count r = 0%nat /\ Report.top_products r = [].
Proof.
  intros (-> & _)%call_Return Hseller Hnone.
  assert (Hagg : aggregate calculateRevenue sellers products records !! j
                 = Some (init_stat seller)).
  { rewrite aggregate_imap, list_lookup_imap, Hseller. simpl. f_equal.
    unfold final_stat. by rewrite (records_of_none sellers records j seller). }
  split; [done |].
  apply list_elem_of_lookup_2 in Hagg.
  rewrite <- sort_by_profit_Permutation in Hagg.
  apply list_elem_of_lookup_1 in Hagg as [i Hi].
  eexists. split.
  - unfold report, rank. apply list_elem_of_fmap. eexists. split; [done |].
    apply list_elem_of_lookup_2 with i. by rewrite list_lookup_imap, Hi.
  - cbn [project stat bonus top_products Report.seller_id Report.name
         Report.revenue Report.profit Report.bonus Report.sales_count
         Report.top_products].
    split_and!; try done.
    unfold calculateBonusByProfit. cbn [init_stat Stat.profit].
    repeat case_match; reflexivity.
Qed.

Lemma seller_without_sales_witness :
  aggregate calculateSimpleRevenue idle_sellers demo_products demo_records !! 2%nat
  = Some (init_stat idle_seller) /\
  exists r,
    r ∈ report calculateSimpleRevenue calculateBonusByProfit
          idle_sellers demo_products demo_records /\
    Report.seller_id r = Seller.id idle_seller /\
    Report.name r
    = (Seller.first_name idle_seller ++ " " ++ Seller.last_name idle_seller)%string /\
    Report.revenue r == 0 /\ Report.profit r == 0 /\ Report.bonus r == 0 /\
    Report.sales_count r = 0%nat /\ Report.top_products r = [].
Proof.
  apply (seller_without_sales calculateSimpleRevenue idle_sellers demo_products
           demo_records _ 2%nat idle_seller); [reflexivity | reflexivity |].
  intros r Hr. unfold demo_records in Hr.
  rewrite !elem_of_cons, elem_of_nil in Hr.
  destruct Hr as [-> | [-> | [-> | []]]]; discriminate.
Defined.

(** ** Quantities sold *)

Lemma elem_of_fold_note_sku (skus seen : list string) k :
  k ∈ fold_left note_sku skus seen <-> k ∈ seen \/ k ∈ skus.
Proof.
  revert seen. induction skus as [| k0 skus IH]; intros seen; simpl.
  - rewrite elem_of_nil. tauto.
  - rewrite IH, elem_of_cons. unfold note_sku. case_bool_decide as Hk0.
    + split; [tauto |]. intros [? | [-> | ?]]; tauto.
    + rewrite elem_of_app, list_elem_of_singleton. tauto.
Qed.

Lemma ensure_entry_get (sold : obj Q) sku :
  exists q,
    obj_get (ensure_entry sold sku) sku = Some q /\ q == quantity_sold sold sku.
Proof.
  unfold ensure_entry, quantity_sold.
  destruct (obj_get sold sku) as [q |] eqn:E.
  - destruct (Qeq_bool q 0) eqn:Hq.
    + exists 0. rewrite obj_get_set_eq. apply Qeq_bool_eq in Hq.
      split; [done | by symmetry].
    + exists q. by rewrite E.
  - exists 0. by rewrite obj_get_set_eq.
Qed.

Lemma ensure_entry_get_ne (sold : obj Q) sku k :
  sku <> k -> obj_get (ensure_entry sold sku) k = obj_get sold k.
Proof.
  intros Hne. unfold ensure_entry.
  destruct (obj_get sold sku) as [q |]; [destruct (Qeq_bool q 0) |];
    by rewrite ?obj_get_set_ne.
Qed.

Lemma sold_skus_plain (productIndex : obj Product.t) records sku :
  sku ∈ sold_skus productIndex records ->
  is_Some (obj_get productIndex sku) /\ inherited sku = false.
Proof.
  unfold sold_skus. intros Hk. apply list_elem_of_In, in_flat_map in Hk.
  destruct Hk as (r & _ & Hk%list_elem_of_In).
  apply list_elem_of_fmap in Hk as (item & -> & Hitem).
  by apply list_elem_of_filter in Hitem as [? _].
Qed.

Section QuantityFacts.
Variable calculateRevenue : RevenueFn.
Variable productIndex : obj Product.t.

Lemma add_item_quantity_comp sku (a a' : Q) item :
  a == a' ->
  add_item_quantity productIndex sku a item
  == add_item_quantity productIndex sku a' item.
Proof.
  intros Ha. unfold add_item_quantity.
  destruct (obj_get _ _); [| done].
  destruct (String.eqb _ _); [| done]. by rewrite Ha.
Qed.

Lemma add_items_quantity_comp sku items (a a' : Q) :
  a == a' ->
  fold_left (add_item_quantity productIndex sku) items a
  == fold_left (add_item_quantity productIndex sku) items a'.
Proof.
  revert a a'. induction items as [| item items IH]; intros a a' Ha; simpl.
  - done.
  - by apply IH, add_item_quantity_comp.
Qed.

Lemma add_records_quantity_comp sku records (a a' : Q) :
  a == a' ->
  fold_left
    (fun acc r =>
       fold_left (add_item_quantity productIndex sku) (Purchase.items r) acc)
    records a
  == fold_left
       (fun acc r =>
          fold_left (add_item_quantity productIndex sku) (Purchase.items r) acc)
       records a'.
Proof.
  revert a a'. induction records as [| r records IH]; intros a a' Ha; simpl.
  - done.
  - by apply IH, add_items_quantity_comp.
Qed.

Lemma quantity_sold_tally_item seller item sku :
  inherited sku = false ->
  quantity_sold
    (Stat.products_sold (tally_item calculateRevenue productIndex seller item)) sku
  == add_item_quantity productIndex sku
       (quantity_sold (Stat.products_sold seller) sku) item.
Proof.
  intros Hsku. unfold tally_item, add_item_quantity.
  destruct (obj_get productIndex (Item.sku item)) as [product |]; [| done].
  cbn [Stat.products_sold].
  destruct (inherited (Item.sku item)) eqn:Hi.
  - destruct (String.eqb (Item.sku item) sku) eqn:E; [| done].
    apply String.eqb_eq in E. congruence.
  - destruct (ensure_entry_get (Stat.products_sold seller) (Item.sku item))
      as (q & Hget & Hq).
    unfold add_quantity. rewrite Hget.
    destruct (String.eqb (Item.sku item) sku) eqn:E.
    + apply String.eqb_eq in E as <-.
      unfold quantity_sold at 1. rewrite obj_get_set_eq. by rewrite Hq.
    + apply String.eqb_neq in E.
      unfold quantity_sold.
      by rewrite obj_get_set_ne, ensure_entry_get_ne.
Qed.

Lemma quantity_sold_tally_items items seller sku :
  inherited sku = false ->
  quantity_sold
    (Stat.products_sold
       (fold_left (tally_item calculateRevenue productIndex) items seller)) sku
  == fold_left (add_item_quantity productIndex sku) items
       (quantity_sold (Stat.products_sold seller) sku).
Proof.
  intros Hsku.
  revert seller. induction items as [| item items IH]; intros seller; simpl.
  - done.
  - rewrite IH. by apply add_items_quantity_comp, quantity_sold_tally_item.
Qed.

Lemma quantity_sold_tally_records records seller sku :
  inherited sku = false ->
  quantity_sold
    (Stat.products_sold
       (fold_left (fun s r => tally_record calculateRevenue productIndex r s)
          records seller)) sku
  == fold_left
       (fun acc r =>
          fold_left (add_item_quantity productIndex sku) (Purchase.items r) acc)
       records (quantity_sold (Stat.products_sold seller) sku).
Proof.
  intros Hsku.
  revert seller. induction records as [| r records IH]; intros seller; simpl.
  - done.
  - rewrite IH. apply add_records_quantity_comp.
    unfold tally_record. by rewrite quantity_sold_tally_items.
Qed.

End QuantityFacts.

(** X8. When the loop ends with numbers in every record, a seller's
    [products_sold] has a property for a sku exactly when one of the
    purchase records sent to the seller has an item with that sku, the sku
    is the sku of a product and it names no member of [Object.prototype];
    its value is then the sum, in order, of the quantities of those
    items. *)
Theorem products_sold_quantities
    calculateRevenue sellers products records sellerStats j s sku :
  run_loop calculateRevenue sellers products records = Numbers sellerStats ->
  sellerStats !! j = Some s ->
  (obj_get (Stat.products_sold s) sku = None <->
   sku ∉ sold_skus (make_productIndex products) (records_of sellers j records)) /\
  (forall q,
     obj_get (Stat.products_sold s) sku = Some q ->
     q == sum_quantities (make_productIndex products) sku
            (records_of sellers j records)).
Proof.
  intros ->%run_loop_Numbers.
  rewrite aggregate_imap, list_lookup_imap.
  destruct (sellers !! j) as [seller |]; [| done].
  intros [= <-].
  assert (Hkeys : obj_get
                    (Stat.products_sold
                       (final_stat calculateRevenue sellers products records j seller))
                    sku = None <->
                  sku ∉ sold_skus (make_productIndex products)
                          (records_of sellers j records)).
  { rewrite obj_get_None_keys, keys_final_stat. unfold first_seen.
    rewrite elem_of_fold_note_sku, elem_of_nil. tauto. }
  split; [exact Hkeys |].
  intros q Hq.
  assert (Hsku : inherited sku = false).
  { destruct (decide (sku ∈ sold_skus (make_productIndex products)
                             (records_of sellers j records))) as [Hin | Hout].
    - by apply sold_skus_plain in Hin as [_ ?].
    - apply Hkeys in Hout. congruence. }
  pose proof (quantity_sold_tally_records calculateRevenue
                (make_productIndex products) (records_of sellers j records)
                (init_stat seller) sku Hsku) as Hsum.
  fold (final_stat calculateRevenue sellers products records j seller) in Hsum.
  unfold quantity_sold at 1 in Hsum. by rewrite Hq in Hsum.
Qed.

Lemma products_sold_quantities_witness :
  (obj_get
     (Stat.products_sold
        (final_stat calculateSimpleRevenue demo_sellers demo_products demo_records
           0 (Seller.mk "seller_1" "Alexey" "Petrov")))
     "SKU_001" = None <->
   "SKU_001"
   ∉ sold_skus (make_productIndex demo_products)
       (records_of demo_sellers 0 demo_records)) /\
  (forall q,
     obj_get
       (Stat.products_sold
          (final_stat calculateSimpleRevenue demo_sellers demo_products demo_records
             0 (Seller.mk "seller_1" "Alexey" "Petrov")))
       "SKU_001" = Some q ->
     q == sum_quantities (make_productIndex demo_products) "SKU_001"
            (records_of demo_sellers 0 demo_records)).
Proof.
  apply (products_sold_quantities calculateSimpleRevenue demo_sellers demo_products
           demo_records
           (aggregate calculateSimpleRevenue demo_sellers demo_products demo_records)
           0%nat).
  - reflexivity.
  - reflexivity.
Defined.

(** ** What the top products hold *)

Lemma Object_entries_Permutation {V} (o : obj V) : Object_entries o ≡ₚ o.
Proof.
  unfold Object_entries. rewrite insertion_sort_Permutation.
  rewrite <- (filter_app_complement (fun kv => is_array_index kv.1 = true) o) at 3.
  f_equiv. apply reflexive_eq, list_filter_iff.
  intros kv. by destruct (is_array_index kv.1).
Qed.

Lemma obj_get_Some_elem {V} (o : obj V) k v : obj_get o k = Some v -> (k, v) ∈ o.
Proof.
  induction o as [| [k0 v0] o IH]; [done |]. simpl.
  destruct (String.eqb k0 k) eqn:E.
  - apply String.eqb_eq in E as ->. intros [= ->]. left.
  - intros Hget. right. by apply IH.
Qed.

Lemma aggregate_keys_NoDup calculateRevenue sellers products records s :
  s ∈ aggregate calculateRevenue sellers products records ->
  NoDup (Stat.products_sold s).*1 /\
  Forall (fun k => k ∈ map Product.sku products) (Stat.products_sold s).*1.
Proof.
  rewrite aggregate_imap. intros (j & seller & -> & _)%elem_of_lookup_imap.
  rewrite keys_final_stat. split.
  - by apply fold_note_sku_NoDup, NoDup_nil.
  - apply Forall_forall. intros k Hk.
    apply elem_of_fold_note_sku in Hk as [[]%elem_of_nil | Hk].
    apply sold_skus_plain in Hk as [Hknown _].
    destruct (decide (k ∈ map Product.sku products)) as [| Hout];
      [done |].
    apply productIndex_None in Hout. rewrite Hout in Hknown.
    by destruct Hknown.
Qed.

Lemma top_products_of_sorted (sold : obj Q) :
  exists rest,
    Array_sort (fun a b => Top.quantity b - Top.quantity a)
      (map to_pair (Object_entries sold))
    = top_products_of sold ++ rest /\
    top_products_of sold ++ rest ≡ₚ map to_pair sold /\
    StronglySorted (fun a b => Top.quantity b <= Top.quantity a)
      (top_products_of sold ++ rest).
Proof.
  unfold top_products_of.
  set (sorted := Array_sort _ _).
  exists (drop 10 sorted). rewrite take_drop. split_and!.
  - done.
  - unfold sorted, Array_sort.
    by rewrite insertion_sort_Permutation, Object_entries_Permutation.
  - apply Sorted_StronglySorted; [intros x y z ??; lra |].
    apply (Array_sort_desc_Sorted Top.quantity).
Qed.

Lemma top_products_of_length (sold : obj Q) :
  length (top_products_of sold) = (10 `min` length sold)%nat.
Proof.
  unfold top_products_of, Array_sort.
  rewrite length_take, insertion_sort_length, length_map.
  by rewrite Object_entries_Permutation.
Qed.

(** X9. On a call that returns, the top products of a report name each sku
    at most once; every entry carries a sku of an input product and the
    quantity that the seller's [products_sold] holds for it. *)
Theorem top_products_are_sold_products
    calculateRevenue calculateBonus sellers products records out :
  call calculateRevenue calculateBonus sellers products records = Return out ->
  Forall2
    (fun s r =>
       NoDup (map Top.sku (Report.top_products r)) /\
       forall t,
         t ∈ Report.top_products r ->
         Top.sku t ∈ map Product.sku products /\
         obj_get (Stat.products_sold s) (Top.sku t) = Some (Top.quantity t))
    (sort_by_profit (aggregate calculateRevenue sellers products records))
    out.
Proof.
  intros (-> & _)%call_Return.
  unfold report, rank. rewrite fmap_imap.
  apply Forall2_same_length_lookup. split; [by rewrite length_imap |].
  intros i s r Hs. rewrite list_lookup_imap, Hs. intros [= <-]. simpl.
  apply list_elem_of_lookup_2 in Hs. rewrite sort_by_profit_Permutation in Hs.
  apply aggregate_keys_NoDup in Hs as [Hnd Hknown].
  destruct (top_products_of_sorted (Stat.products_sold s))
    as (rest & _ & Hperm & _).
  assert (Hin : forall t,
            t ∈ top_products_of (Stat.products_sold s) ->
            exists kv, kv ∈ Stat.products_sold s /\ t = to_pair kv).
  { intros t Ht.
    assert (Ht' : t ∈ map to_pair (Stat.products_sold s)).
    { rewrite <- Hperm. apply elem_of_app. by left. }
    apply list_elem_of_fmap in Ht' as (kv & -> & Hkv). by exists kv. }
  split.
  - apply (NoDup_app (map Top.sku (top_products_of (Stat.products_sold s)))
             (map Top.sku rest)).
    rewrite <- map_app, Hperm, map_map. exact Hnd.
  - intros t (kv & Hkv & ->)%Hin. destruct kv as [k q]. simpl. split.
    + rewrite Forall_forall in Hknown. apply Hknown.
      apply list_elem_of_fmap. by exists (k, q).
    + by apply obj_get_elem_NoDup.
Qed.

Lemma top_products_are_sold_products_witness :
  Forall2
    (fun s r =>
       NoDup (map Top.sku (Report.top_products r)) /\
       forall t,
         t ∈ Report.top_products r ->
         Top.sku t ∈ map Product.sku demo_products /\
         obj_get (Stat.products_sold s) (Top.sku t) = Some (Top.quantity t))
    (sort_by_profit
       (aggregate calculateSimpleRevenue demo_sellers demo_products demo_records))
    (report calculateSimpleRevenue calculateBonusByProfit
       demo_sellers demo_products demo_records).
Proof.
  exact (top_products_are_sold_products calculateSimpleRevenue
           calculateBonusByProfit demo_sellers demo_products demo_records _
           eq_refl).
Defined.

(** X10. On a call that returns, a report lists as many top products as
    the seller sold distinct known skus, but never more than ten: the
    reports, read as (seller id, number of top products), are the input
    sellers with these numbers, in some order. *)
Theorem top_products_count
    calculateRevenue calculateBonus sellers products records out :
  call calculateRevenue calculateBonus sellers products records = Return out ->
  map (fun r => (Report.seller_id r, length (Report.top_products r))) out
  ≡ₚ imap (fun j seller =>
             (Seller.id seller,
              (10 `min`
               length (first_seen
                         (sold_skus (make_productIndex products)
                            (records_of sellers j records))))%nat))
       sellers.
Proof.
  intros (-> & _)%call_Return.
  rewrite (report_fields_Permutation _ _ _ _ _ _
             (fun s => (Stat.id s,
                        (10 `min` length (Stat.products_sold s).*1)%nat))).
  - apply reflexive_eq, imap_ext. intros j seller _. simpl.
    rewrite keys_final_stat.
    by destruct (final_stat_fields calculateRevenue sellers products records j seller)
      as (-> & _).
  - intros s b. simpl. by rewrite top_products_of_length, length_fmap.
Qed.

Lemma top_products_count_witness :
  map (fun r => (Report.seller_id r, length (Report.top_products r)))
    (report calculateSimpleRevenue calculateBonusByProfit
       demo_sellers demo_products demo_records)
  ≡ₚ imap (fun j seller =>
             (Seller.id seller,
              (10 `min`
               length (first_seen
                         (sold_skus (make_productIndex demo_products)
                            (records_of demo_sellers j demo_records))))%nat))
       demo_sellers.
Proof.
  exact (top_products_count calculateSimpleRevenue calculateBonusByProfit
           demo_sellers demo_products demo_records _ eq_refl).
Defined.

(** X11. On a call that returns, what the cut to ten leaves out is never
    larger than what it keeps: a sku of the seller's [products_sold] that
    is not among the top products has a quantity no greater than that of
    any top product. *)
Theorem top_products_are_the_largest
    calculateRevenue calculateBonus sellers products records out :
  call calculateRevenue calculateBonus sellers products records = Return out ->
  Forall2
    (fun s r =>
       forall t k q,
         t ∈ Report.top_products r ->
         obj_get (Stat.products_sold s) k = Some q ->
         Top.mk k q ∉ Report.top_products r ->
         q <= Top.quantity t)
    (sort_by_profit (aggregate calculateRevenue sellers products records))
    out.
Proof.
  intros (-> & _)%call_Return.
  unfold report, rank. rewrite fmap_imap.
  apply Forall2_same_length_lookup. split; [by rewrite length_imap |].
  intros i s r Hs. rewrite list_lookup_imap, Hs. intros [= <-]. simpl.
  intros t k q Ht Hq Hout.
  destruct (top_products_of_sorted (Stat.products_sold s))
    as (rest & _ & Hperm & Hsorted).
  assert (Hrest : Top.mk k q ∈ rest).
  { assert (Hin : Top.mk k q ∈ top_products_of (Stat.products_sold s) ++ rest).
    { rewrite Hperm. apply list_elem_of_fmap. exists (k, q).
      split; [done |]. by apply obj_get_Some_elem. }
    apply elem_of_app in Hin as [? | ?]; done. }
  apply (StronglySorted_app_1_elem_of _ _ _ t (Top.mk k q) Hsorted Ht Hrest).
Qed.

Lemma top_products_are_the_largest_witness :
  Forall2
    (fun s r =>
       forall t k q,
         t ∈ Report.top_products r ->
         obj_get (Stat.products_sold s) k = Some q ->
         Top.mk k q ∉ Report.top_products r ->
         q <= Top.quantity t)
    (sort_by_profit
       (aggregate calculateSimpleRevenue demo_sellers demo_products demo_records))
    (report calculateSimpleRevenue calculateBonusByProfit
       demo_sellers demo_products demo_records).
Proof.
  exact (top_products_are_the_largest calculateSimpleRevenue
           calculateBonusByProfit demo_sellers demo_products demo_records _
           eq_refl).
Defined.

(** ** Cleaning the input beforehand *)

Section Cleaning.
Variable calculateRevenue : RevenueFn.
Variable productIndex : obj Product.t.

Lemma tally_items_known items seller :
  fold_left (tally_item calculateRevenue productIndex) items seller
  = fold_left (tally_item calculateRevenue productIndex)
      (filter (fun item => is_Some (obj_get productIndex (Item.sku item))) items)
      seller.
Proof.
  revert seller. induction items as [| item items IH]; intros seller; [done |].
  destruct (obj_get productIndex (Item.sku item)) as [product |] eqn:E.
  - rewrite filter_cons_True by (by rewrite E). simpl. apply IH.
  - rewrite filter_cons_False by (rewrite E; by intros [? ?]).
    simpl. rewrite <- IH. f_equal. unfold tally_item. by rewrite E.
Qed.

Lemma tally_record_strip r seller :
  tally_record calculateRevenue productIndex r seller
  = tally_record calculateRevenue productIndex (strip_record productIndex r) seller.
Proof. unfold tally_record. simpl. apply tally_items_known. Qed.

Lemma tally_strip sellerIndex sellerStats r :
  tally calculateRevenue sellerIndex productIndex sellerStats r
  = tally calculateRevenue sellerIndex productIndex sellerStats
      (strip_record productIndex r).
Proof.
  unfold tally. simpl.
  destruct (obj_get sellerIndex (Purchase.seller_id r)) as [ref |]; [| done].
  apply list_eq. intros j. rewrite !list_lookup_alter.
  case_decide; [| done].
  destruct (sellerStats !! ref); [| done]. simpl.
  by rewrite tally_record_strip.
Qed.

Lemma fold_tally_clean sellerIndex (known : Purchase.t -> Prop)
    `{!forall r, Decision (known r)} records sellerStats :
  (forall r, ~ known r -> obj_get sellerIndex (Purchase.seller_id r) = None) ->
  fold_left (tally calculateRevenue sellerIndex productIndex)
    records sellerStats
  = fold_left (tally calculateRevenue sellerIndex productIndex)
      (map (strip_record productIndex) (filter known records)) sellerStats.
Proof.
  intros Hknown. revert sellerStats.
  induction records as [| r records IH]; intros sellerStats; [done |].
  destruct (decide (known r)) as [Hr | Hr].
  - rewrite filter_cons_True by done. simpl.
    rewrite <- tally_strip. apply IH.
  - rewrite filter_cons_False by done. simpl. rewrite <- IH. f_equal.
    unfold tally. by rewrite Hknown.
Qed.

End Cleaning.

Lemma aggregate_clean calculateRevenue sellers products records :
  aggregate calculateRevenue sellers products
    (clean_records sellers products records)
  = aggregate calculateRevenue sellers products records.
Proof.
  unfold clean_records, aggregate. cbv zeta. symmetry.
  apply (fold_tally_clean calculateRevenue (make_productIndex products)
           (make_sellerIndex (map init_stat sellers))
           (fun r => Purchase.seller_id r ∈ map Seller.id sellers)).
  intros r. apply sellerIndex_None.
Qed.

Lemma existsb_false_Forall {A} (f : A -> bool) (l : list A) :
  existsb f l = false -> Forall (fun x => f x = false) l.
Proof.
  induction l as [| x l IH]; simpl; [by constructor |].
  intros [Hx Hl]%orb_false_elim. constructor; [done | by apply IH].
Qed.

Lemma poisons_strip sellerIndex (productIndex : obj Product.t) (r : Purchase.t) :
  poisons sellerIndex productIndex r = false ->
  poisons sellerIndex productIndex (strip_record productIndex r) = false.
Proof.
  unfold poisons. simpl. destruct (obj_read sellerIndex _); try done.
  rewrite !negb_false_iff, !forallb_forall. intros Hr item Hitem. apply Hr.
  apply list_elem_of_In in Hitem. apply list_elem_of_filter in Hitem as [_ Hitem].
  by apply list_elem_of_In.
Qed.

(** Cleaned records neither end the loop nor leave the numbers, when the
    records they come from do not leave the numbers. *)
Lemma clean_records_numeric sellers products records :
  existsb (poisons (make_sellerIndex (map init_stat sellers))
             (make_productIndex products)) records = false ->
  existsb (throws_at (make_sellerIndex (map init_stat sellers))
             (make_productIndex products))
    (clean_records sellers products records) = false /\
  existsb (poisons (make_sellerIndex (map init_stat sellers))
             (make_productIndex products))
    (clean_records sellers products records) = false.
Proof.
  intros Hnum%existsb_false_Forall. unfold clean_records. split.
  - apply existsb_false, Forall_fmap, Forall_forall.
    intros r [Hr _]%list_elem_of_filter. simpl.
    apply throws_at_plain. by left.
  - apply existsb_false, Forall_fmap, Forall_forall.
    intros r [_ Hr]%list_elem_of_filter. simpl.
    apply poisons_strip. rewrite Forall_forall in Hnum. by apply Hnum.
Qed.

(** X12. Dangling references can be removed beforehand without changing
    the result.  When the call returns its array of numbers, that array is
    what the purchase records produce once every record of an unknown
    seller and every item of an unknown sku has been taken out; and the
    call on these remaining records, when there is one, returns the same
    array. *)
Theorem cleaning_changes_nothing
    calculateRevenue calculateBonus sellers products records out :
  call calculateRevenue calculateBonus sellers products records = Return out ->
  out = report calculateRevenue calculateBonus sellers products
          (clean_records sellers products records) /\
  (clean_records sellers products records <> [] ->
   call calculateRevenue calculateBonus sellers products
     (clean_records sellers products records)
   = Return out).
Proof.
  intros Hcall. pose proof Hcall as (-> & Hs & Hp & Hr)%call_Return.
  assert (Hsame : report calculateRevenue calculateBonus sellers products
                    (clean_records sellers products records)
                  = report calculateRevenue calculateBonus sellers products
                      records).
  { unfold report. by rewrite aggregate_clean. }
  split; [done |]. intros Hclean.
  rewrite call_spec in Hcall by done. rewrite call_spec by done.
  destruct (existsb (throws_at _ _) records); [done |].
  destruct (existsb (poisons _ _) records) eqn:Hnum; [done |].
  apply clean_records_numeric in Hnum as [-> ->]. by rewrite Hsame.
Qed.

Lemma cleaning_changes_nothing_witness :
  report calculateSimpleRevenue calculateBonusByProfit
    demo_sellers demo_products demo_records
  = report calculateSimpleRevenue calculateBonusByProfit
      demo_sellers demo_products
      (clean_records demo_sellers demo_products demo_records) /\
  call calculateSimpleRevenue calculateBonusByProfit demo_sellers demo_products
    (clean_records demo_sellers demo_products demo_records)
  = Return (report calculateSimpleRevenue calculateBonusByProfit
              demo_sellers demo_products demo_records).
Proof.
  destruct (cleaning_changes_nothing calculateSimpleRevenue calculateBonusByProfit
              demo_sellers demo_products demo_records _ eq_refl)
    as [Hreport Hcall].
  split; [exact Hreport |]. apply Hcall. intros Hnil. vm_compute in Hnil.
  discriminate Hnil.
Defined.

(** ** A product nobody sold *)

Lemma fold_set_get_cong {V} (entries : list (string * V)) (o o' : obj V) k :
  obj_get o k = obj_get o' k ->
  obj_get (fold_left (fun o kv => obj_set o kv.1 kv.2) entries o) k
  = obj_get (fold_left (fun o kv => obj_set o kv.1 kv.2) entries o') k.
Proof.
  revert o o'. induction entries as [| [k0 v0] entries IH]; intros o o' Hk;
    [done |].
  simpl. apply IH. rewrite !obj_get_set. by destruct (String.eqb k0 k).
Qed.

Lemma productIndex_remove l1 (p : Product.t) l2 k :
  k <> Product.sku p ->
  obj_get (make_productIndex (l1 ++ p :: l2)) k
  = obj_get (make_productIndex (l1 ++ l2)) k.
Proof.
  intros Hk. unfold make_productIndex, fromEntries.
  rewrite !map_app, !fold_left_app. simpl.
  apply fold_set_get_cong. by rewrite obj_get_set_ne.
Qed.

Section SameLookups.
Variable calculateRevenue : RevenueFn.
Variables productIndex productIndex' : obj Product.t.

Lemma tally_items_ext items seller :
  Forall (fun item =>
            obj_get productIndex (Item.sku item)
            = obj_get productIndex' (Item.sku item)) items ->
  fold_left (tally_item calculateRevenue productIndex) items seller
  = fold_left (tally_item calculateRevenue productIndex') items seller.
Proof.
  intros Hitems. revert seller.
  induction Hitems as [| item items Hitem _ IH]; intros seller; [done |].
  simpl. rewrite IH. f_equal. unfold tally_item. by rewrite Hitem.
Qed.

Lemma fold_tally_ext sellerIndex records sellerStats :
  Forall (fun r =>
            Forall (fun item =>
                      obj_get productIndex (Item.sku item)
                      = obj_get productIndex' (Item.sku item))
              (Purchase.items r)) records ->
  fold_left (tally calculateRevenue sellerIndex productIndex)
    records sellerStats
  = fold_left (tally calculateRevenue sellerIndex productIndex')
      records sellerStats.
Proof.
  intros Hrecords. revert sellerStats.
  induction Hrecords as [| r records Hr _ IH]; intros sellerStats; [done |].
  simpl. rewrite IH. f_equal. unfold tally.
  destruct (obj_get sellerIndex (Purchase.seller_id r)) as [ref |]; [| done].
  apply list_eq. intros j. rewrite !list_lookup_alter.
  case_decide; [| done].
  destruct (sellerStats !! ref); [| done]. simpl. f_equal.
  unfold tally_record. by apply tally_items_ext.
Qed.

End SameLookups.

Section SameReads.
Variables productIndex productIndex' : obj Product.t.

Lemma resolves_ext item :
  obj_get productIndex (Item.sku item) = obj_get productIndex' (Item.sku item) ->
  resolves productIndex item = resolves productIndex' item.
Proof. intros Hitem. unfold resolves, obj_read. by rewrite Hitem. Qed.

Lemma numeric_item_ext item :
  obj_get productIndex (Item.sku item) = obj_get productIndex' (Item.sku item) ->
  numeric_item productIndex item = numeric_item productIndex' item.
Proof. intros Hitem. unfold numeric_item, obj_read. by rewrite Hitem. Qed.

Lemma throws_at_ext sellerIndex r :
  same_reads productIndex productIndex' r ->
  throws_at sellerIndex productIndex r = throws_at sellerIndex productIndex' r.
Proof.
  intros Hr. unfold throws_at. destruct (obj_read sellerIndex _); try done.
  induction Hr as [| item items Hitem _ IH]; [done |].
  simpl. by rewrite IH, (resolves_ext item).
Qed.

Lemma poisons_ext sellerIndex r :
  same_reads productIndex productIndex' r ->
  poisons sellerIndex productIndex r = poisons sellerIndex productIndex' r.
Proof.
  intros Hr. unfold poisons. destruct (obj_read sellerIndex _); try done.
  f_equal. induction Hr as [| item items Hitem _ IH]; [done |].
  simpl. by rewrite IH, (numeric_item_ext item).
Qed.

End SameReads.

Lemma existsb_Forall_ext {A} (f g : A -> bool) (l : list A) :
  Forall (fun x => f x = g x) l -> existsb f l = existsb g l.
Proof. induction 1 as [| x l Hx _ IH]; [done |]. simpl. by rewrite Hx, IH. Qed.

Lemma business_logic_plain calculateRevenue calculateBonus sellers products records :
  Forall (plain_seller_id sellers) records ->
  Forall plain_skus records ->
  business_logic calculateRevenue calculateBonus sellers products records
  = Return (report calculateRevenue calculateBonus sellers products records).
Proof.
  intros Hids Hskus. unfold business_logic, report.
  rewrite run_loop_spec. cbv zeta.
  rewrite (existsb_false (throws_at _ _)).
  2: { eapply Forall_impl; [exact Hids |]. intros r. by apply throws_at_plain. }
  rewrite (existsb_false (poisons _ _)); [done |].
  eapply Forall_impl; [exact Hskus |]. intros r. apply poisons_plain.
Qed.

(** X13. A product whose sku no item of any purchase record carries has no
    part in the result: with it in the products array, the call ends as
    the loop and what follows it end on the other products alone.  So the
    call returns the array the other products produce when every
    [seller_id] is the id of a seller or names no member of
    [Object.prototype], and no sku of an item names one. *)
Theorem unsold_product_changes_nothing
    calculateRevenue calculateBonus sellers l1 p l2 records :
  sellers <> [] -> records <> [] ->
  (forall r item,
     r ∈ records -> item ∈ Purchase.items r -> Item.sku item <> Product.sku p) ->
  call calculateRevenue calculateBonus sellers (l1 ++ p :: l2) records
  = business_logic calculateRevenue calculateBonus sellers (l1 ++ l2) records /\
  (Forall (plain_seller_id sellers) records -> Forall plain_skus records ->
   call calculateRevenue calculateBonus sellers (l1 ++ p :: l2) records
   = Return (report calculateRevenue calculateBonus sellers (l1 ++ l2) records)).
Proof.
  intros Hs Hr Hunsold.
  assert (Hreads : Forall (same_reads (make_productIndex (l1 ++ p :: l2))
                             (make_productIndex (l1 ++ l2))) records).
  { apply Forall_forall. intros r Hrin. apply Forall_forall. intros item Hitem.
    apply productIndex_remove. by apply (Hunsold r item). }
  assert (Hcall : call calculateRevenue calculateBonus sellers (l1 ++ p :: l2)
                    records
                  = business_logic calculateRevenue calculateBonus sellers
                      (l1 ++ l2) records).
  { rewrite call_business_logic by (done || by destruct l1).
    unfold business_logic. rewrite !run_loop_spec. cbv zeta.
    rewrite (existsb_Forall_ext
               (throws_at _ (make_productIndex (l1 ++ p :: l2)))
               (throws_at (make_sellerIndex (map init_stat sellers))
                  (make_productIndex (l1 ++ l2)))).
    2: { eapply Forall_impl; [exact Hreads |]. intros r. apply throws_at_ext. }
    rewrite (existsb_Forall_ext
               (poisons _ (make_productIndex (l1 ++ p :: l2)))
               (poisons (make_sellerIndex (map init_stat sellers))
                  (make_productIndex (l1 ++ l2)))).
    2: { eapply Forall_impl; [exact Hreads |]. intros r. apply poisons_ext. }
    unfold aggregate. cbv zeta.
    by rewrite (fold_tally_ext calculateRevenue
                  (make_productIndex (l1 ++ p :: l2))
                  (make_productIndex (l1 ++ l2))). }
  split; [exact Hcall |].
  intros Hids Hskus. rewrite Hcall. by apply business_logic_plain.
Qed.

Lemma unsold_product_changes_nothing_witness :
  call calculateSimpleRevenue calculateBonusByProfit demo_sellers
    (demo_products ++ Product.mk "SKU_003" 5 :: []) demo_records
  = business_logic calculateSimpleRevenue calculateBonusByProfit demo_sellers
      (demo_products ++ []) demo_records /\
  call calculateSimpleRevenue calculateBonusByProfit demo_sellers
    (demo_products ++ Product.mk "SKU_003" 5 :: []) demo_records
  = Return (report calculateSimpleRevenue calculateBonusByProfit demo_sellers
              (demo_products ++ []) demo_records).
Proof.
  assert (Hunsold : forall r item,
            r ∈ demo_records -> item ∈ Purchase.items r ->
            Item.sku item <> Product.sku (Product.mk "SKU_003" 5)).
  { intros r item Hr Hitem. unfold demo_records in Hr.
    rewrite !elem_of_cons, elem_of_nil in Hr.
    destruct Hr as [-> | [-> | [-> | []]]]; simpl in Hitem;
      rewrite !elem_of_cons, elem_of_nil in Hitem;
      repeat (destruct Hitem as [-> | Hitem]; [discriminate |]); done. }
  destruct (unsold_product_changes_nothing calculateSimpleRevenue
              calculateBonusByProfit demo_sellers demo_products
              (Product.mk "SKU_003" 5) [] demo_records
              ltac:(done) ltac:(done) Hunsold) as [Hloop Hreturn].
  split; [exact Hloop |]. apply Hreturn.
  - repeat (constructor; [by right |]). constructor.
  - repeat constructor.
Defined.

(** Without these two conditions the call need not return: a purchase
    record whose [seller_id] is ["toString"] ends it with a [TypeError],
    with the unsold product in the array and without it. *)
Example unsold_product_TypeError :
  call calculateSimpleRevenue calculateBonusByProfit demo_sellers
    (demo_products ++ [Product.mk "SKU_003" 5])
    (demo_records ++ [toString_record])
  = Throw TypeError /\
  business_logic calculateSimpleRevenue calculateBonusByProfit demo_sellers
    demo_products (demo_records ++ [toString_record])
  = Throw TypeError.
Proof. split; reflexivity. Qed.
